(** * httpmiddleware: the ingress-log interceptor, embedded and verified

    A shallow embedding of package [httpmiddleware]
    (constant.go, the configuration file and log_ingress.go) together with
    the parts of Go's standard library and of the logging package it calls.

    Go values are rendered as follows.
    - [string] and [[]byte] : [string] and [list Byte.byte];
    - [int], [int64]        : [Z];
    - [map[string]T]        : [gmap string T] (a nil map is the empty map);
    - [*Config]             : a location in a store of [Config] cells;
    - [*ExcludeOption], [*FieldOption] : an [option] ([None] is nil);
    - a panic of the Go runtime (nil dereference) : the result [None]. *)

From Stdlib Require Import ZArith Lia Bool Ascii String List.
From stdpp Require Import base option numbers list strings gmap fin_maps.

Local Open Scope string_scope.
Local Open Scope list_scope.
Local Open Scope Z_scope.

(** ** constant.go *)

Definition FieldType : string := "type".
Definition FieldURL : string := "url_path".
Definition FieldReqHeader : string := "req_header".
Definition FieldReqBody : string := "req_body".
Definition FieldResponseHeader : string := "rsp_header".
Definition FieldStatus : string := "status".
Definition FieldResponseBody : string := "rsp_body".
Definition FieldDurationMs : string := "duration_ms".
Definition FieldReqTimestamp : string := "req_timestamp".

Definition ExcludeLog : bool := true.
Definition IncludeLog : bool := false.

Definition headerNameRequestID : string := "x-request-id".
Definition EventPrefix : string := "events".
Definition URLSeparator : string := "/".

Definition wipedMessage : string := "-".

(** log_ingress.go, line 43. *)
Definition valueLogTypeIngress : string := "ingress_http".

(** net/http status codes used by the package. *)
Definition StatusOK : Z := 200.
Definition StatusInternalServerError : Z := 500.

(** ** The configuration *)

Record ExcludeOption := mkExcludeOption {
  RequestHeader : bool;
  RequestBody : bool;
  ResponseHeader : bool;
  ResponseBody : bool;
  SuccessResponseBody : bool;
  SuccessRequest : bool;
  RequestHeaderKeys : list string
}.

Record FieldOption := mkFieldOption {
  FieldOption_EventPrefix : string
}.

Record Config := mkConfig {
  ExcludeOpt : option ExcludeOption;
  DisableIngressLog : bool;
  FieldOpt : option FieldOption
}.

(** [&ExcludeOption{}]: every field at its zero value. *)
Definition emptyExcludeOption : ExcludeOption :=
  mkExcludeOption false false false false false false [].

(** [Config{}] with a given exclusion block, the shape the tests build. *)
Definition configOf (e : option ExcludeOption) : Config :=
  mkConfig e false None.

(** The value written by [c.ExcludeOpt = &ExcludeOption{}]. *)
Definition withExcludeOpt (c : Config) (e : ExcludeOption) : Config :=
  mkConfig (Some e) (DisableIngressLog c) (FieldOpt c).

(** *** The policy questions (methods on [*Config]) *)

Definition LogRequestHeader (c : Config) : bool :=
  match ExcludeOpt c with
  | None => IncludeLog
  | Some e => Bool.eqb (RequestHeader e) IncludeLog
  end.

Definition LogRequestBody (c : Config) : bool :=
  match ExcludeOpt c with
  | None => IncludeLog
  | Some e => Bool.eqb (RequestBody e) IncludeLog
  end.

Definition LogResponseHeader (c : Config) : bool :=
  match ExcludeOpt c with
  | None => IncludeLog
  | Some e => Bool.eqb (ResponseHeader e) IncludeLog
  end.

Definition LogResponseBody (c : Config) : bool :=
  match ExcludeOpt c with
  | None => IncludeLog
  | Some e => Bool.eqb (ResponseBody e) IncludeLog
  end.

Definition LogSuccessResponseBody (c : Config) : bool :=
  match ExcludeOpt c with
  | None => IncludeLog
  | Some e => Bool.eqb (SuccessResponseBody e) IncludeLog
  end.

Definition LogFailedRequestOnly (c : Config) : bool :=
  match ExcludeOpt c with
  | None => IncludeLog
  | Some e => Bool.eqb (SuccessRequest e) ExcludeLog
  end.

Definition GetEventPrefix (c : Config) : string :=
  match FieldOpt c with
  | None => EventPrefix +:+ URLSeparator
  | Some f =>
      if (String.length (FieldOption_EventPrefix f) =? 0)%nat
      then EventPrefix +:+ URLSeparator
      else FieldOption_EventPrefix f +:+ URLSeparator
  end.

(** *** The store of [Config] cells

    A [*Config] is a location; the caller of [NewIngressLogMiddleware] and
    the interceptor may hold the same location. *)

Abbreviation ptr := positive.
Abbreviation ConfigStore := (gmap positive Config).

(** [&Config{...}]: a new cell at an unused location. *)
Definition allocConfig (c : Config) (h : ConfigStore) : ptr * ConfigStore :=
  let p := fresh (dom h) in (p, <[p := c]> h).

Definition defaultConfig (h : ConfigStore) : ptr * ConfigStore :=
  allocConfig (mkConfig (Some emptyExcludeOption) false None) h.

(** [NewConfig(c)]: writes through [c] and returns [c] itself.  [None] is
    the nil dereference of a pointer that designates no cell. *)
Definition NewConfig (c : ptr) (h : ConfigStore) : option (ptr * ConfigStore) :=
  match h !! c with
  | None => None
  | Some cfg =>
      match ExcludeOpt cfg with
      | None => Some (c, <[c := withExcludeOpt cfg emptyExcludeOption]> h)
      | Some _ => Some (c, h)
      end
  end.

(** ** Go's standard library, as far as the package uses it *)

(** *** net/textproto and net/http: header maps *)

Module textproto.

Definition isLower (c : ascii) : bool :=
  let n := N_of_ascii c in ((97 <=? n) && (n <=? 122))%N.

Definition isUpper (c : ascii) : bool :=
  let n := N_of_ascii c in ((65 <=? n) && (n <=? 90))%N.

Definition isDigit (c : ascii) : bool :=
  let n := N_of_ascii c in ((48 <=? n) && (n <=? 57))%N.

(** [toLower = 'a' - 'A']. *)
Definition toLower : N := 32.

(** The token bytes of RFC 7230 ([isTokenTable]). *)
Definition validHeaderFieldByte (c : ascii) : bool :=
  isLower c || isUpper c || isDigit c ||
  existsb (Ascii.eqb c)
    (list_ascii_of_string "!#$%&'*+-.^_`|~").

(** The second loop of [canonicalMIMEHeaderKey]: upper case for the first
    letter and after each dash, lower case elsewhere. *)
Fixpoint canonicalize (upper : bool) (a : string) : string :=
  match a with
  | EmptyString => EmptyString
  | String c rest =>
      let c' :=
        if upper && isLower c then ascii_of_N (N_of_ascii c - toLower)
        else if negb upper && isUpper c then ascii_of_N (N_of_ascii c + toLower)
        else c in
      String c' (canonicalize (Ascii.eqb c' "-"%char) rest)
  end.

(** [CanonicalMIMEHeaderKey]: a key with a byte that is not a token byte
    is returned unchanged, any other key is canonicalized. *)
Definition CanonicalMIMEHeaderKey (s : string) : string :=
  if forallb validHeaderFieldByte (list_ascii_of_string s)
  then canonicalize true s
  else s.

End textproto.

Module http.

(** [type Header map[string][]string]. *)
Abbreviation Header := (gmap string (list string)).

(** [h.Get(key)]: the first value under the canonical key, or the
    empty string. *)
Definition Get (h : Header) (key : string) : string :=
  match h !! textproto.CanonicalMIMEHeaderKey key with
  | Some (v :: _) => v
  | _ => EmptyString
  end.


(** [h.Del(key)]. *)
Definition Del (h : Header) (key : string) : Header :=
  delete (textproto.CanonicalMIMEHeaderKey key) h.

(** [h.Clone()]: a deep copy; maps are values here, the copy is the map. *)
Definition Clone (h : Header) : Header := h.

End http.

(** *** io, io/ioutil and bytes: readers *)

Module io.

(** What a [Read] can end with: [io.EOF] or any other error. *)
Inductive error :=
| EOF
| ErrOther (msg : string).

(** A reader in a given state: the chunks its next [Read] calls return
    with a nil error, and the error every [Read] returns once they are
    exhausted.  A body is a finite stream. *)
Record Reader := mkReader {
  pending : list (list Byte.byte);
  final : error
}.

Definition Read (r : Reader) : list Byte.byte * option error * Reader :=
  match pending r with
  | c :: rest => (c, None, mkReader rest (final r))
  | [] => ([], Some (final r), r)
  end.

(** The loop of [ReadAll] from a buffer [b]: append what [Read] gives
    until it reports an error; [io.EOF] is reported as no error. *)
Fixpoint readAllFrom (chunks : list (list Byte.byte)) (fin : error)
    (b : list Byte.byte) : list Byte.byte * option error :=
  match chunks with
  | c :: rest => readAllFrom rest fin (b ++ c)
  | [] => (b, match fin with EOF => None | ErrOther m => Some (ErrOther m) end)
  end.

Definition ReadAll (r : Reader) : list Byte.byte * option error :=
  readAllFrom (pending r) (final r) [].

(** [bytes.NewBuffer(b)] behind [ioutil.NopCloser]: one read gives the
    unread bytes, a read on an empty buffer gives [io.EOF]. *)
Definition NewBuffer (b : list Byte.byte) : Reader :=
  match b with
  | [] => mkReader [] EOF
  | _ :: _ => mkReader [b] EOF
  end.

Definition NopCloser (r : Reader) : Reader := r.

End io.

(** *** context and the request *)

(** A request context: the values attached under (string) keys.  The value
    the logging package keeps there is a [map[string]string]. *)
Abbreviation Context := (gmap string (gmap string string)).

Module Request.

Record t := mk {
  Method : string;
  URL : string;                       (* r.URL.String() *)
  Header : http.Header;
  Body : option io.Reader;            (* None: a nil Body *)
  ctx : Context                       (* r.Context() *)
}.

Definition setBody (r : t) (b : option io.Reader) : t :=
  mk (Method r) (URL r) (Header r) b (ctx r).

Definition WithContext (r : t) (c : Context) : t :=
  mk (Method r) (URL r) (Header r) (Body r) c.

End Request.

(** *** time *)

Module time.

(** A [time.Time] is its count of nanoseconds since the epoch; a
    [time.Duration] is a count of nanoseconds in an int64. *)
Definition maxDuration : Z := 2 ^ 63 - 1.
Definition minDuration : Z := - 2 ^ 63.

(** [t.Sub(u)]: the difference, saturated to the range of a Duration. *)
Definition Sub (t u : Z) : Z :=
  let d := t - u in
  if maxDuration <? d then maxDuration
  else if d <? minDuration then minDuration
  else d.

(** [d.Milliseconds()]: integer division, truncated toward zero. *)
Definition Milliseconds (d : Z) : Z := Z.quot d 1000000.

(** [t.Unix()]: whole seconds since the epoch. *)
Definition Unix (t : Z) : Z := t `div` 1000000000.

End time.

(** *** github.com/google/uuid *)

Module uuid.

Definition hexdigit (n : Z) : ascii :=
  nth (Z.to_nat n) (list_ascii_of_string "0123456789abcdef") "0"%char.

(** [hex.Encode] of a run of bytes, in front of [rest]. *)
Fixpoint encodeHex (bs : list Z) (rest : string) : string :=
  match bs with
  | [] => rest
  | b :: bs' =>
      String (hexdigit (Z.shiftr (Z.land b 255) 4))
        (String (hexdigit (Z.land b 15)) (encodeHex bs' rest))
  end.

(** [NewRandom]: sixteen random bytes with the version (4) and variant
    (10) bits set. *)
Definition setVersion (u : list Z) : list Z :=
  let u := alter (λ b, Z.lor (Z.land b 15) 64) 6%nat u in
  alter (λ b, Z.lor (Z.land b 63) 128) 8%nat u.

(** [uuid.String()]: xxxxxxxx-xxxx-xxxx-xxxx-xxxxxxxxxxxx. *)
Definition String (u : list Z) : string :=
  encodeHex (take 4 u)
    ("-" +:+ encodeHex (take 2 (drop 4 u))
      ("-" +:+ encodeHex (take 2 (drop 6 u))
        ("-" +:+ encodeHex (take 2 (drop 8 u))
          ("-" +:+ encodeHex (take 6 (drop 10 u)) EmptyString)))).

End uuid.

(** ** The log record and the world around a request *)

(** A value of the [map[string]interface{}] handed to the logger. *)
Inductive Value :=
| VString (s : string)
| VInt (n : Z)
| VHeader (h : http.Header).

Abbreviation DataMap := (gmap string Value).

(** One call of [logger.InfoMap(ctx, dataMap)]. *)
Record LogEntry := mkLogEntry {
  entry_ctx : Context;
  entry_data : DataMap
}.

(** Everything outside the request that the interceptor reads or writes:
    the clock, the random source of [uuid.New], the [Config] cells and the
    records emitted so far (oldest first). *)
Record World := mkWorld {
  clock : Z;
  entropy : nat → Z;
  cursor : nat;
  configs : ConfigStore;
  emitted : list LogEntry
}.

Definition Now (σ : World) : Z := clock σ.

(** [time.Since(t)] = [time.Now().Sub(t)]. *)
Definition Since (t : Z) (σ : World) : Z := time.Sub (Now σ) t.

(** [uuid.New().String()]: consumes sixteen bytes of the random source. *)
Definition uuid_New_String (σ : World) : string * World :=
  let raw := map (λ k, Z.land (entropy σ k) 255) (seq (cursor σ) 16) in
  (uuid.String (uuid.setVersion raw),
   mkWorld (clock σ) (entropy σ) (cursor σ + 16)%nat (configs σ) (emitted σ)).

(** [InfoMap]: the record is emitted. *)
Definition InfoMap (c : Context) (dataMap : DataMap) (σ : World) : World :=
  mkWorld (clock σ) (entropy σ) (cursor σ) (configs σ)
          (emitted σ ++ [mkLogEntry c dataMap]).

(** *** net/http: the response sink *)

Module ResponseWriter.

(** The state of the real [http.ResponseWriter]: its header map, the
    status it committed (if any) and the body bytes sent. *)
Record t := mk {
  Header : http.Header;
  committed : option Z;
  written : list Byte.byte
}.

(** A second [WriteHeader] is superfluous and ignored. *)
Definition WriteHeader (w : t) (code : Z) : t :=
  match committed w with
  | Some _ => w
  | None => mk (Header w) (Some code) (written w)
  end.

(** [Write] commits [StatusOK] when nothing was committed before. *)
Definition Write (w : t) (b : list Byte.byte) : t :=
  let w := WriteHeader w StatusOK in
  mk (Header w) (committed w) (written w ++ b).

Definition fresh : t := mk ∅ None [].

End ResponseWriter.

(** ** The logging package, as the interceptor sees it

    [github.com/muhammad-fakhri/log] is a dependency, not part of this
    repository.  The interceptor uses: the fields [Status] and [Body] of
    [LoggingResponseWriter], its embedded [http.ResponseWriter] (for
    [Header()]), its [WriteHeader] and [Write], and of the logger
    [CreateResponseWrapper], [SetContextDataAndSetValue] and [InfoMap]
    (above), and the context key [ContextDataMapKey]. *)

Module logpkg.

Class Library := {
  LoggingResponseWriter : Type;
  Status : LoggingResponseWriter → Z;
  Body : LoggingResponseWriter → string;
  Sink : LoggingResponseWriter → ResponseWriter.t;
  WriteHeader : LoggingResponseWriter → Z → LoggingResponseWriter;
  Write : LoggingResponseWriter → list Byte.byte → LoggingResponseWriter;
  CreateResponseWrapper : ResponseWriter.t → LoggingResponseWriter;
  SetContextDataAndSetValue :
    Request.t → option (gmap string string) → string → Request.t;
  ContextDataMapKey : string
}.

(** [rw.Header()], promoted from the embedded writer. *)
Definition Header `{Library} (rw : LoggingResponseWriter) : http.Header :=
  ResponseWriter.Header (Sink rw).

End logpkg.

(** ** log_ingress.go *)

(** The middleware object.  Its [logger] field is the logging package of
    the enclosing section; [config] is the [*Config] it keeps. *)
Record IngressLog := mkIngressLog {
  config : ptr
}.

Record LogRequest := mkLogRequest {
  URL : string;
  Method : string;
  Header : http.Header;
  Body : string
}.

(** The value given to [panic], and its rendering by the verb [%v]. *)
Inductive PanicValue :=
| PanicNil
| PanicString (s : string)
| PanicError (msg : string).

Definition fmt_v (v : PanicValue) : string :=
  match v with
  | PanicNil => "<nil>"
  | PanicString s => s
  | PanicError msg => msg
  end.

Inductive Outcome :=
| Returned
| Panicked (v : PanicValue).

(** [recover()] in a deferred function: the panic value, or nil when the
    function returned.  With the Go version of go.mod (1.17) the value of
    [panic(nil)] is reported as nil too. *)
Definition recover (o : Outcome) : option PanicValue :=
  match o with
  | Returned => None
  | Panicked PanicNil => None
  | Panicked v => Some v
  end.

(** [NewIngressLogMiddleware(logger, optionalConfig...)]: the variadic
    argument is a list of possibly nil pointers. *)
Definition NewIngressLogMiddleware (optionalConfig : list (option ptr))
    (h : ConfigStore) : option (IngressLog * ConfigStore) :=
  match optionalConfig with
  | [] | None :: _ =>
      let '(conf, h') := defaultConfig h in Some (mkIngressLog conf, h')
  | Some c :: _ =>
      match NewConfig c h with
      | None => None
      | Some (conf, h') => Some (mkIngressLog conf, h')
      end
  end.

(** [getBodyBytes(body *io.ReadCloser)]: the result, and the reader stored
    through the pointer. *)
Definition getBodyBytes (body : io.Reader)
    : (list Byte.byte * option io.error) * io.Reader :=
  let '(responseBodyBytes, err) := io.ReadAll body in
  ((responseBodyBytes, err), io.NopCloser (io.NewBuffer responseBodyBytes)).

(** [getRequestBody(request)]: the snapshot, and the request as the call
    leaves it. *)
Definition getRequestBody (request : Request.t) : string * Request.t :=
  match Request.Body request with
  | None => ("null", request)
  | Some body =>
      let '((requestBodyBytes, err), body') := getBodyBytes body in
      let request := Request.setBody request (Some body') in
      match err with
      | Some _ => ("null", request)
      | None => (string_of_list_byte requestBodyBytes, request)
      end
  end.

Definition buildLogRequest (r : Request.t) : LogRequest * Request.t :=
  let '(body, r') := getRequestBody r in
  (mkLogRequest (Request.URL r) (Request.Method r) (Request.Header r) body, r').

(** [LogRequest.Header] is the request's own header map, not a copy: what
    [log] finds there is the map's content when [log] runs. *)
Definition observeHeader (request : LogRequest) (now : http.Header) : LogRequest :=
  mkLogRequest (URL request) (Method request) now (Body request).

Section Middleware.

Context `{!logpkg.Library}.

(** What running a handler gives: how it ended, the recorder and the
    request's header map as it leaves them, and the world afterwards. *)
Record HandlerResult := mkHandlerResult {
  outcome : Outcome;
  writer : logpkg.LoggingResponseWriter;
  reqHeader : http.Header;
  world : World
}.

Definition Handler : Type :=
  logpkg.LoggingResponseWriter → Request.t → World → HandlerResult.

(** [httprouter.Params] and [httprouter.Handle]. *)
Definition Params : Type := list (string * string).
Definition Handle : Type :=
  logpkg.LoggingResponseWriter → Request.t → Params → World → HandlerResult.

Definition appendContextDataAndSetValue (i : IngressLog) (r : Request.t)
    (σ : World) : Request.t * World :=
  match Request.ctx r !! logpkg.ContextDataMapKey with
  | Some _ => (r, σ)
  | None =>
      let contextID := http.Get (Request.Header r) headerNameRequestID in
      if String.eqb contextID EmptyString then
        let '(contextID, σ') := uuid_New_String σ in
        (logpkg.SetContextDataAndSetValue r None contextID, σ')
      else
        (logpkg.SetContextDataAndSetValue r None contextID, σ)
  end.

(** Lines 153-165: the request headers as logged.  [None] is the nil
    dereference of [i.config.ExcludeOpt]. *)
Definition logRequestHeader (cfg : Config) (request : LogRequest)
    (dataMap : DataMap) : option DataMap :=
  if LogRequestHeader cfg then
    let header := http.Clone (Header request) in
    let header := http.Del header "Authorization" in
    match ExcludeOpt cfg with
    | None => None
    | Some e =>
        let excludeRequestHeaderKeys := RequestHeaderKeys e in
        let header :=
          if (0 <? length excludeRequestHeaderKeys)%nat
          then foldl http.Del header excludeRequestHeaderKeys
          else header in
        Some (<[FieldReqHeader := VHeader header]> dataMap)
    end
  else Some dataMap.

(** Lines 177-187. *)
Definition logResponseBody (cfg : Config) (rw : logpkg.LoggingResponseWriter)
    (dataMap : DataMap) : DataMap :=
  if LogResponseBody cfg then
    if LogSuccessResponseBody cfg then
      <[FieldResponseBody := VString (logpkg.Body rw)]> dataMap
    else if negb (logpkg.Status rw =? StatusOK) then
      <[FieldResponseBody := VString (logpkg.Body rw)]> dataMap
    else
      <[FieldResponseBody := VString wipedMessage]> dataMap
  else dataMap.

(** Lines 145-187: the data map of a record that is not skipped. *)
Definition buildDataMap (cfg : Config) (request : LogRequest) (timeTaken : Z)
    (requestTimestamp : Z) (rw : logpkg.LoggingResponseWriter)
    : option DataMap :=
  let dataMap : DataMap := ∅ in
  let dataMap := <[FieldType := VString valueLogTypeIngress]> dataMap in
  let dataMap :=
    <[FieldURL := VString (Method request +:+ " " +:+ URL request)]> dataMap in
  let dataMap := <[FieldReqTimestamp := VInt (time.Unix requestTimestamp)]> dataMap in
  let dataMap := <[FieldStatus := VInt (logpkg.Status rw)]> dataMap in
  let dataMap := <[FieldDurationMs := VInt timeTaken]> dataMap in
  match logRequestHeader cfg request dataMap with
  | None => None
  | Some dataMap =>
      let dataMap :=
        if LogRequestBody cfg
        then <[FieldReqBody := VString (Body request)]> dataMap
        else dataMap in
      let dataMap :=
        if LogResponseHeader cfg then
          let header := http.Clone (logpkg.Header rw) in
          let header := http.Del header "Authorization" in
          <[FieldResponseHeader := VHeader header]> dataMap
        else dataMap in
      Some (logResponseBody cfg rw dataMap)
  end.

(** [(i *IngressLog) log]: [None] is a nil dereference ([i.config] or
    [i.config.ExcludeOpt]). *)
Definition log (i : IngressLog) (c : Context) (request : LogRequest)
    (timeTaken : Z) (requestTimestamp : Z)
    (rw : logpkg.LoggingResponseWriter) (σ : World) : option World :=
  match configs σ !! config i with
  | None => None
  | Some cfg =>
      if DisableIngressLog cfg
         || (LogFailedRequestOnly cfg && (logpkg.Status rw =? StatusOK))
      then Some σ
      else
        match buildDataMap cfg request timeTaken requestTimestamp rw with
        | None => None
        | Some dataMap => Some (InfoMap c dataMap σ)
        end
  end.

(** The text of the fallback response: [fmt.Sprintf("panic: %v.", r)]. *)
Definition panicMessage (v : PanicValue) : string :=
  "panic: " +:+ fmt_v v +:+ ".".

(** The deferred function of [Enforce] (lines 81-94) and of
    [EnforceWithParams] (lines 117-130), which are the same text; its
    arguments [elapsedTimeInMS] and [requestTimestamp] are the values the
    two variables hold when it runs.  The diagnostics it prints
    ([fmt.Println], [debug.PrintStack]) go to the standard streams of the
    process and are not part of the model. *)
Definition deferred (i : IngressLog) (newRequest : Request.t)
    (request : LogRequest) (elapsedTimeInMS : Z) (requestTimestamp : Z)
    (writer : logpkg.LoggingResponseWriter) (r : option PanicValue)
    (σ : World) : option (logpkg.LoggingResponseWriter * World) :=
  let writer :=
    match r with
    | Some v =>
        let writer := logpkg.WriteHeader writer StatusInternalServerError in
        logpkg.Write writer (list_byte_of_string (panicMessage v))
    | None => writer
    end in
  match log i (Request.ctx newRequest) request elapsedTimeInMS
            requestTimestamp writer σ with
  | None => None
  | Some σ' => Some (writer, σ')
  end.

(** [Enforce(next)] applied to a writer and a request.  The result is the
    recorder (whose embedded writer is [w]) and the world once the
    deferred function has run; [None] is a panic that leaves the
    handler. *)
Definition Enforce (i : IngressLog) (next : Handler) (w : ResponseWriter.t)
    (r : Request.t) (σ : World) : option (logpkg.LoggingResponseWriter * World) :=
  let '(logReqMessage, r) := buildLogRequest r in
  let '(newRequest, σ) := appendContextDataAndSetValue i r σ in
  let newWriter := logpkg.CreateResponseWrapper w in
  let startTime := Now σ in
  let res := next newWriter newRequest σ in
  let request := observeHeader logReqMessage (reqHeader res) in
  match outcome res with
  | Returned =>
      let elapsedTimeInMS := time.Milliseconds (Since startTime (world res)) in
      deferred i newRequest request elapsedTimeInMS startTime
               (writer res) (recover Returned) (world res)
  | Panicked v =>
      (* line 98 is not reached: elapsedTimeInMS keeps its zero value *)
      deferred i newRequest request 0 startTime
               (writer res) (recover (Panicked v)) (world res)
  end.

(** The run of the wrapped handler inside [Enforce]:
    [next.ServeHTTP(newWriter, newRequest)] at line 97. *)
Definition served (i : IngressLog) (next : Handler) (w : ResponseWriter.t)
    (r : Request.t) (σ : World) : HandlerResult :=
  let '(_, r) := buildLogRequest r in
  let '(newRequest, σ) := appendContextDataAndSetValue i r σ in
  next (logpkg.CreateResponseWrapper w) newRequest σ.

Definition EnforceWithParams (i : IngressLog) (next : Handle)
    (w : ResponseWriter.t) (r : Request.t) (ps : Params) (σ : World)
    : option (logpkg.LoggingResponseWriter * World) :=
  let '(logReqMessage, r) := buildLogRequest r in
  let '(newRequest, σ) := appendContextDataAndSetValue i r σ in
  let newWriter := logpkg.CreateResponseWrapper w in
  let startTime := Now σ in
  let res := next newWriter newRequest ps σ in
  let request := observeHeader logReqMessage (reqHeader res) in
  match outcome res with
  | Returned =>
      let elapsedTimeInMS := time.Milliseconds (Since startTime (world res)) in
      deferred i newRequest request elapsedTimeInMS startTime
               (writer res) (recover Returned) (world res)
  | Panicked v =>
      deferred i newRequest request 0 startTime
               (writer res) (recover (Panicked v)) (world res)
  end.

End Middleware.

(** ** A reference logging package *)

(** Modelled from the spec: the response recorder and the context
    propagation of the logging package, which is a dependency whose source
    is not under src/.  The recorder (spec 4.3) forwards every write
    unchanged to the real sink and accumulates the status code (the first
    explicit status wins; if never set it is OK) and the body bytes
    (concatenated in write order).  [SetContextDataAndSetValue] (spec 6)
    attaches the correlation identifier and the caller's field mapping
    (initially empty) to the request's context under a well-known key. *)
Module Recorder.

Record t := mk {
  sink : ResponseWriter.t;
  Status : Z;
  Body : string;
  explicit : bool
}.

Definition Create (w : ResponseWriter.t) : t := mk w StatusOK EmptyString false.

Definition WriteHeader (rw : t) (code : Z) : t :=
  mk (ResponseWriter.WriteHeader (sink rw) code)
     (if explicit rw then Status rw else code)
     (Body rw) true.

Definition Write (rw : t) (b : list Byte.byte) : t :=
  mk (ResponseWriter.Write (sink rw) b) (Status rw)
     (Body rw +:+ string_of_list_byte b) (explicit rw).

Definition ContextDataMapKey : string := "context_data_map".
Definition ContextIdKey : string := "context_id".

Definition SetContextDataAndSetValue (r : Request.t)
    (data : option (gmap string string)) (contextID : string) : Request.t :=
  Request.WithContext r
    (<[ContextDataMapKey := <[ContextIdKey := contextID]> (default ∅ data)]>
       (Request.ctx r)).

End Recorder.

Definition specLibrary : logpkg.Library := {|
  logpkg.LoggingResponseWriter := Recorder.t;
  logpkg.Status := Recorder.Status;
  logpkg.Body := Recorder.Body;
  logpkg.Sink := Recorder.sink;
  logpkg.WriteHeader := Recorder.WriteHeader;
  logpkg.Write := Recorder.Write;
  logpkg.CreateResponseWrapper := Recorder.Create;
  logpkg.SetContextDataAndSetValue := Recorder.SetContextDataAndSetValue;
  logpkg.ContextDataMapKey := Recorder.ContextDataMapKey
|}.

(** ** Sample handlers, requests and worlds (after log_ingress_test.go) *)

Module Sample.

#[local] Existing Instance specLibrary.

Definition advance (ns : Z) (σ : World) : World :=
  mkWorld (clock σ + ns) (entropy σ) (cursor σ) (configs σ) (emitted σ).

Definition second : Z := 1000000000.
Definition millisecond : Z := 1000000.

(** [hello]: echoes the request body with status 200 after one second. *)
Definition hello : Handler := λ writer request σ,
  let responseBodyBytes :=
    match Request.Body request with
    | Some b => fst (io.ReadAll b)
    | None => []
    end in
  let header := <["Add" := ["new-value"]]> (Request.Header request) in
  let σ := advance second σ in
  let sink := Recorder.sink writer in
  let sink := ResponseWriter.mk
                (<["Content-Type" := ["application/json"]]> (ResponseWriter.Header sink))
                (ResponseWriter.committed sink) (ResponseWriter.written sink) in
  let writer := Recorder.mk sink (Recorder.Status writer) (Recorder.Body writer)
                            (Recorder.explicit writer) in
  let writer := Recorder.WriteHeader writer StatusOK in
  let writer := Recorder.Write writer responseBodyBytes in
  mkHandlerResult Returned writer header σ.

(** [panicHandler]: a nil dereference after 111 milliseconds. *)
Definition nilDereference : PanicValue :=
  PanicError "runtime error: invalid memory address or nil pointer dereference".

Definition panicHandler : Handler := λ writer request σ,
  mkHandlerResult (Panicked nilDereference) writer (Request.Header request)
                  (advance (111 * millisecond) σ).

(** A handler that needs a second and panics before it responds. *)
Definition slowPanicHandler : Handler := λ writer request σ,
  mkHandlerResult (Panicked nilDereference) writer (Request.Header request)
                  (advance second σ).

(** A handler that calls [panic(nil)]. *)
Definition nilPanicHandler : Handler := λ writer request σ,
  mkHandlerResult (Panicked PanicNil) writer (Request.Header request)
                  (advance millisecond σ).

(** A handler that commits a response and then panics. *)
Definition commitThenPanic : Handler := λ writer request σ,
  let writer := Recorder.WriteHeader writer StatusOK in
  let writer := Recorder.Write writer (list_byte_of_string "Hello") in
  mkHandlerResult (Panicked (PanicString "boom")) writer (Request.Header request)
                  (advance millisecond σ).

Definition reqBody : string := "{name:shopee-shopee}".

(** A body in two chunks, and one whose second read fails. *)
Definition bodyReader : io.Reader :=
  io.mkReader [list_byte_of_string "{name:shopee"; list_byte_of_string "-shopee}"]
              io.EOF.


Definition headers : http.Header :=
  {[ "X-Country" := ["ID"]; "Authorization" := ["Bearer abcdefghijkl"];
     "X-Exclude-Key" := ["exclude-header-value"] ]}.

Definition request : Request.t :=
  Request.mk "GET" "/hello" headers (Some bodyReader) ∅.

(** The request once [requestIDMiddleware] has attached its identifier. *)
Definition defContextid : string := "abcdefghijklmnopq".

Definition requestWithID : Request.t :=
  Request.WithContext request
    {[ Recorder.ContextDataMapKey := {[ Recorder.ContextIdKey := defContextid ]} ]}.

(** The request with an x-request-id header. *)
Definition requestWithHeaderID : Request.t :=
  Request.mk "GET" "/hello" (<["X-Request-Id" := ["req-42"]]> headers)
             (Some bodyReader) ∅.

(** The interceptor keeps the cell at location 1. *)
Definition mw : IngressLog := mkIngressLog 1.

Definition worldOf (cfg : Config) : World :=
  mkWorld (1700000000 * second) (λ k, Z.of_nat k * 37 + 11) 0
          {[ 1%positive := cfg ]} [].

Definition excludeConfig : Config :=
  configOf (Some (mkExcludeOption false false false false true false
                                  ["X-Exclude-Key"])).

Definition disabledConfig : Config :=
  mkConfig (Some emptyExcludeOption) true None.

Definition plainConfig : Config := configOf (Some emptyExcludeOption).

(** Only failed requests are logged. *)
Definition failedOnlyConfig : Config :=
  configOf (Some (mkExcludeOption false false false false false true [])).

(** The snapshot of [request], and recorders after a 200 and a 500. *)
Definition logRequest : LogRequest :=
  mkLogRequest "/hello" "GET" headers reqBody.

Definition responseHeaders : http.Header :=
  {[ "Content-Type" := ["application/json"]; "Authorization" := ["secret"] ]}.

Definition recorderWith (code : Z) (body : string) : Recorder.t :=
  Recorder.Write
    (Recorder.WriteHeader
       (Recorder.Create (ResponseWriter.mk responseHeaders None [])) code)
    (list_byte_of_string body).

Definition timestamp : Z := 1700000000 * second.

Definition plainWorld : World := worldOf plainConfig.
Definition disabledWorld : World := worldOf disabledConfig.
Definition excludeWorld : World := worldOf excludeConfig.

(** The handler's runs that the statements below name. *)
Definition panicRun : HandlerResult :=
  served mw panicHandler ResponseWriter.fresh request plainWorld.

Definition commitThenPanicRun : HandlerResult :=
  served mw commitThenPanic ResponseWriter.fresh request disabledWorld.


(** The recorder of [panicRun] after the fallback response. *)
Definition panicFallback : Recorder.t :=
  Recorder.Write (Recorder.WriteHeader (writer panicRun) 500)
    (list_byte_of_string ("panic: " +:+ fmt_v nilDereference +:+ ".")).

End Sample.

(** ** The rest of the package: record format and test helpers *)

(** The configuration [c] with another list RequestHeaderKeys in its
    exclusion block (no change when the block is nil). *)
Definition withRequestHeaderKeys (c : Config) (keys : list string) : Config :=
  mkConfig
    (match ExcludeOpt c with
     | Some e =>
         Some (mkExcludeOption (RequestHeader e) (RequestBody e) (ResponseHeader e)
                 (ResponseBody e) (SuccessResponseBody e) (SuccessRequest e) keys)
     | None => None
     end)
    (DisableIngressLog c) (FieldOpt c).

(** The field names of constant.go, lines 4-12. *)
Definition fieldNames : list string :=
  [FieldType; FieldURL; FieldReqHeader; FieldReqBody; FieldResponseHeader;
   FieldStatus; FieldResponseBody; FieldDurationMs; FieldReqTimestamp].

(** [LogMessage] (log_ingress.go, lines 31-40). *)
Module LogMessage.

Record t := mk {
  URL : string;
  ReqMethod : string;
  ReqHeader : http.Header;
  ReqBody : string;
  ResponseHeader : http.Header;
  ResponseCode : Z;
  ResponseBody : string;
  TimeTakenInMS : Z
}.

End LogMessage.

(** log_ingress_test.go: the helpers around the interceptor. *)
Module Test.

(** [strings.Split(s, sep)] for a separator of one byte, which is how the
    package calls it: the pieces between the separators, one more piece
    than there are separators. *)
Fixpoint Split (s : string) (sep : ascii) : list string :=
  match s with
  | EmptyString => [EmptyString]
  | String c rest =>
      if Ascii.eqb c sep then EmptyString :: Split rest sep
      else match Split rest sep with
           | piece :: pieces => String c piece :: pieces
           | [] => [String c EmptyString]
           end
  end.

(** The type assertions [.(string)], [.(int)] / [.(int64)] and
    [.(http.Header)] on an entry of the fields; [None] is the panic of a
    failed assertion (a missing entry is a nil interface and fails too). *)
Definition asString (v : option Value) : option string :=
  match v with Some (VString s) => Some s | _ => None end.

Definition asInt (v : option Value) : option Z :=
  match v with Some (VInt n) => Some n | _ => None end.

Definition asHeader (v : option Value) : option http.Header :=
  match v with Some (VHeader h) => Some h | _ => None end.

(** [extractLogMessage(t, mssg)] (lines 321-334).  [None] is a panic: a
    failed type assertion, or [urlPath[1]] out of range. *)
Definition extractLogMessage (mssg : DataMap) : option LogMessage.t :=
  match asString (mssg !! FieldURL) with
  | None => None
  | Some url_path =>
      let urlPath := Split url_path " "%char in
      match urlPath !! 1%nat, urlPath !! 0%nat with
      | Some url, Some method =>
          match asInt (mssg !! FieldStatus), asInt (mssg !! FieldDurationMs),
                asHeader (mssg !! FieldReqHeader), asString (mssg !! FieldReqBody),
                asHeader (mssg !! FieldResponseHeader),
                asString (mssg !! FieldResponseBody) with
          | Some code, Some ms, Some reqHeader, Some reqBody, Some rspHeader,
            Some rspBody =>
              Some (LogMessage.mk url method reqHeader reqBody rspHeader code
                                  rspBody ms)
          | _, _, _, _, _, _ => None
          end
      | _, _ => None
      end
  end.

Definition defContextid : string := "abcdefghijklmnopq".


End Test.

(** Further sample values. *)
Module Cases.

(** The exclusion list of the tests, spelled in lower case and twice. *)
Definition lowerCaseConfig : Config :=
  withRequestHeaderKeys Sample.excludeConfig ["x-exclude-key"; "X-EXCLUDE-KEY"].

(** A store with one configuration that names no exclusion block. *)
Definition callerStore : ConfigStore :=
  {[ 1%positive := mkConfig None true (Some (mkFieldOption "audit")) ]}.

Definition twoConfigs : ConfigStore :=
  {[ 1%positive := configOf None; 2%positive := Sample.excludeConfig ]}.


(** [callerStore] once [NewConfig] has run on its cell, and a world with
    that store. *)
Definition auditConfig : Config :=
  mkConfig (Some emptyExcludeOption) true (Some (mkFieldOption "audit")).

Definition auditWorld : World := Sample.worldOf auditConfig.



(** The same with the request headers excluded from the log. *)
Definition noHeaderConfig : Config :=
  configOf (Some (mkExcludeOption true false false false false false [])).

Definition noHeaderDataMap : DataMap :=
  default ∅ (@buildDataMap specLibrary noHeaderConfig Sample.logRequest
               1000 Sample.timestamp (Sample.recorderWith 500 "oops")).

(** The runs of handlers that the statements below name. *)
Definition helloPlainRun : @HandlerResult specLibrary :=
  @served specLibrary Sample.mw Sample.hello ResponseWriter.fresh
    Sample.request Sample.plainWorld.


Definition auditRun : @HandlerResult specLibrary :=
  @served specLibrary Sample.mw Sample.commitThenPanic ResponseWriter.fresh
    Sample.request auditWorld.





End Cases.

(** * Properties *)

(** ** The policy questions *)

Lemma LogRequestHeader_ExcludeOpt (c : Config) :
  LogRequestHeader c = true → ∃ e, ExcludeOpt c = Some e ∧ RequestHeader e = false.
Proof.
  unfold LogRequestHeader, IncludeLog.
  destruct (ExcludeOpt c) as [e|]; [|discriminate].
  destruct (RequestHeader e) eqn:E; [discriminate|]. eauto.
Qed.

Lemma policy_after_NewConfig (c : Config) :
  ExcludeOpt c = None →
  let c' := withExcludeOpt c emptyExcludeOption in
  LogRequestHeader c' = true ∧ LogRequestBody c' = true ∧
  LogResponseHeader c' = true ∧ LogResponseBody c' = true ∧
  LogSuccessResponseBody c' = true ∧ LogFailedRequestOnly c' = false.
Proof. intros _. repeat split. Qed.

(** ** Header maps *)

Lemma Authorization_canonical :
  textproto.CanonicalMIMEHeaderKey "Authorization" = "Authorization".
Proof. reflexivity. Qed.

Lemma headerNameRequestID_canonical :
  textproto.CanonicalMIMEHeaderKey headerNameRequestID = "X-Request-Id".
Proof. reflexivity. Qed.

Lemma Del_lookup (h : http.Header) (key j : string) :
  http.Del h key !! j =
  if decide (textproto.CanonicalMIMEHeaderKey key = j) then None else h !! j.
Proof. unfold http.Del. apply lookup_delete. Qed.

Lemma Del_Get (h : http.Header) (key : string) :
  http.Get (http.Del h key) key = EmptyString.
Proof. unfold http.Get. rewrite Del_lookup. by rewrite decide_True. Qed.

(** Deleting a run of keys removes each of them and adds nothing. *)
Lemma foldl_Del_absent (keys : list string) (h : http.Header) (j : string) :
  h !! j = None → foldl http.Del h keys !! j = None.
Proof.
  revert h. induction keys as [|k keys IH]; intros h Hj; simpl; [done|].
  apply IH. rewrite Del_lookup. by case_decide.
Qed.

Lemma foldl_Del_listed (keys : list string) (h : http.Header) (k : string) :
  k ∈ keys → foldl http.Del h keys !! textproto.CanonicalMIMEHeaderKey k = None.
Proof.
  revert h. induction keys as [|k' keys IH]; intros h Hk; simpl.
  - by apply elem_of_nil in Hk.
  - apply elem_of_cons in Hk as [->|Hk]; [|by apply IH].
    apply foldl_Del_absent. rewrite Del_lookup. by rewrite decide_True.
Qed.

Lemma foldl_Del_sub (keys : list string) (h : http.Header) (j : string) v :
  foldl http.Del h keys !! j = Some v → h !! j = Some v.
Proof.
  revert h. induction keys as [|k keys IH]; intros h; simpl; [done|].
  intros Hj%IH. rewrite Del_lookup in Hj. by case_decide.
Qed.

(** On a header map whose keys are all canonical (what net/http's parser
    and [Add]/[Set] produce), what is left after the deletions has no key
    that is a spelling variant of Authorization or of a deleted name. *)
Lemma canonical_headers_redacted (h : http.Header) (keys : list string) :
  (∀ k v, h !! k = Some v → textproto.CanonicalMIMEHeaderKey k = k) →
  ∀ k v, foldl http.Del (http.Del h "Authorization") keys !! k = Some v →
    textproto.CanonicalMIMEHeaderKey k ≠ "Authorization"
    ∧ ∀ key, key ∈ keys →
        textproto.CanonicalMIMEHeaderKey k ≠ textproto.CanonicalMIMEHeaderKey key.
Proof.
  intros Hcanon k v Hk.
  pose proof (foldl_Del_sub _ _ _ _ Hk) as Hk'.
  rewrite Del_lookup, Authorization_canonical in Hk'.
  case_decide as Hne; [done|].
  rewrite (Hcanon _ _ Hk'). split; [congruence|].
  intros key Hkey Heq.
  pose proof (foldl_Del_listed keys (http.Del h "Authorization") key Hkey) as Hgone.
  rewrite <- Heq in Hgone. congruence.
Qed.



(** ** Readers and the body capture *)

Lemma readAllFrom_app (chunks : list (list Byte.byte)) (fin : io.error)
    (b : list Byte.byte) :
  io.readAllFrom chunks fin b =
  (b ++ concat chunks,
   match fin with io.EOF => None | io.ErrOther m => Some (io.ErrOther m) end).
Proof.
  revert b. induction chunks as [|c chunks IH]; intros b; simpl.
  - by rewrite app_nil_r.
  - by rewrite IH, app_assoc.
Qed.

Lemma ReadAll_EOF (chunks : list (list Byte.byte)) :
  io.ReadAll (io.mkReader chunks io.EOF) = (concat chunks, None).
Proof. unfold io.ReadAll. simpl. by rewrite readAllFrom_app. Qed.

Lemma ReadAll_ErrOther (chunks : list (list Byte.byte)) (msg : string) :
  io.ReadAll (io.mkReader chunks (io.ErrOther msg)) =
  (concat chunks, Some (io.ErrOther msg)).
Proof. unfold io.ReadAll. simpl. by rewrite readAllFrom_app. Qed.

(** [ReadAll] is the loop over [Read] of the Go source. *)
Lemma ReadAll_Read (r : io.Reader) :
  io.ReadAll r =
  match io.Read r with
  | (c, None, r') => let '(b, err) := io.ReadAll r' in (c ++ b, err)
  | (c, Some io.EOF, _) => (c, None)
  | (c, Some e, _) => (c, Some e)
  end.
Proof.
  destruct r as [[|c chunks] fin]; unfold io.ReadAll, io.Read; simpl.
  - by destruct fin.
  - by rewrite !readAllFrom_app.
Qed.

Lemma ReadAll_NewBuffer (b : list Byte.byte) :
  io.ReadAll (io.NewBuffer b) = (b, None).
Proof.
  destruct b as [|x b]; [done|].
  unfold io.NewBuffer. rewrite ReadAll_EOF. simpl. by rewrite app_nil_r.
Qed.

(** What a reader of the restored stream sees, read by read: the bytes in
    one piece, then [io.EOF]. *)
Lemma Read_NewBuffer (x : Byte.byte) (b : list Byte.byte) :
  io.Read (io.NewBuffer (x :: b)) = (x :: b, None, io.mkReader [] io.EOF) ∧
  io.Read (io.mkReader [] io.EOF) = ([], Some io.EOF, io.mkReader [] io.EOF).
Proof. done. Qed.

Lemma getBodyBytes_spec (body : io.Reader) :
  getBodyBytes body = (io.ReadAll body, io.NewBuffer (io.ReadAll body).1).
Proof. unfold getBodyBytes, io.NopCloser. by destruct (io.ReadAll body). Qed.

(** C5.  The body capture [getRequestBody], on a request whose body is a
    stream that ends with EOF after giving [chunks]: the snapshot is the
    text of all the bytes of the stream, the request's body is replaced by
    a fresh stream over the same bytes, and reading that stream to its end
    gives byte for byte the content of the original stream, without error.
    On a nil body the snapshot is the marker "null" and the request is
    untouched; on a stream whose read fails the snapshot is the marker
    "null", and no error leaves the function. *)
Theorem getRequestBody_capture (r : Request.t) (chunks : list (list Byte.byte))
    (msg : string) :
  let content := concat chunks in
  getRequestBody (Request.setBody r (Some (io.mkReader chunks io.EOF))) =
    (string_of_list_byte content, Request.setBody r (Some (io.NewBuffer content)))
  ∧ list_byte_of_string (string_of_list_byte content) = content
  ∧ io.ReadAll (io.NewBuffer content) = (content, None)
  ∧ getRequestBody (Request.setBody r None) = ("null", Request.setBody r None)
  ∧ (getRequestBody
       (Request.setBody r (Some (io.mkReader chunks (io.ErrOther msg))))).1 = "null".
Proof.
  intros content. repeat split.
  - unfold getRequestBody. simpl.
    rewrite getBodyBytes_spec, ReadAll_EOF. reflexivity.
  - apply list_byte_of_string_of_list_byte.
  - apply ReadAll_NewBuffer.
  - unfold getRequestBody. simpl.
    rewrite getBodyBytes_spec, ReadAll_ErrOther. reflexivity.
Qed.

(** C10.  When reading the request body fails after [chunks] were read,
    the stream put back on the request holds exactly the bytes read before
    the error and ends with a plain EOF, so a downstream handler reads the
    truncated content without seeing the error; the snapshot of the
    request that goes to the log records the body as "null". *)
Theorem failed_read_restores_prefix (r : Request.t)
    (chunks : list (list Byte.byte)) (msg : string) :
  let broken := io.mkReader chunks (io.ErrOther msg) in
  let got := concat chunks in
  getBodyBytes broken = ((got, Some (io.ErrOther msg)), io.NewBuffer got)
  ∧ getRequestBody (Request.setBody r (Some broken)) =
      ("null", Request.setBody r (Some (io.NewBuffer got)))
  ∧ io.ReadAll (io.NewBuffer got) = (got, None)
  ∧ Body (buildLogRequest (Request.setBody r (Some broken))).1 = "null"
  ∧ Request.Body (buildLogRequest (Request.setBody r (Some broken))).2 =
      Some (io.NewBuffer got).
Proof.
  intros broken got.
  assert (Hb : getBodyBytes broken = ((got, Some (io.ErrOther msg)), io.NewBuffer got)).
  { unfold broken. rewrite getBodyBytes_spec, ReadAll_ErrOther. reflexivity. }
  assert (Hr : getRequestBody (Request.setBody r (Some broken)) =
               ("null", Request.setBody r (Some (io.NewBuffer got)))).
  { unfold getRequestBody. simpl. fold broken. rewrite Hb. reflexivity. }
  repeat split; try done.
  - apply ReadAll_NewBuffer.
  - unfold buildLogRequest. by rewrite Hr.
  - unfold buildLogRequest. by rewrite Hr.
Qed.

(** ** The log record *)

Ltac read_fields :=
  repeat first
    [ rewrite lookup_insert_eq
    | rewrite lookup_insert_ne by done
    | rewrite lookup_empty ].

Section LogRecord.

Context `{!logpkg.Library}.

(** The guard of line 158 changes nothing: an empty loop deletes nothing. *)
Lemma guarded_loop (header : http.Header) (keys : list string) :
  (if (0 <? length keys)%nat then foldl http.Del header keys else header)
  = foldl http.Del header keys.
Proof. by destruct keys. Qed.

Lemma logRequestHeader_spec (cfg : Config) (request : LogRequest) (dataMap : DataMap) :
  logRequestHeader cfg request dataMap =
  if LogRequestHeader cfg then
    match ExcludeOpt cfg with
    | Some e =>
        Some (<[FieldReqHeader :=
                 VHeader (foldl http.Del (http.Del (Header request) "Authorization")
                                (RequestHeaderKeys e))]> dataMap)
    | None => None
    end
  else Some dataMap.
Proof.
  unfold logRequestHeader, http.Clone.
  destruct (LogRequestHeader cfg); [|done].
  destruct (ExcludeOpt cfg) as [e|]; [|done].
  by rewrite guarded_loop.
Qed.

(** [log] never dereferences a nil [ExcludeOpt]: the data map is always
    built. *)
Lemma buildDataMap_total (cfg : Config) (request : LogRequest) (timeTaken ts : Z)
    (rw : logpkg.LoggingResponseWriter) :
  ∃ dataMap, buildDataMap cfg request timeTaken ts rw = Some dataMap.
Proof.
  unfold buildDataMap. rewrite logRequestHeader_spec.
  destruct (LogRequestHeader cfg) eqn:E; [|eauto].
  apply LogRequestHeader_ExcludeOpt in E as (e & -> & _). eauto.
Qed.

(** Every field of a record, read back from the data map. *)
Lemma buildDataMap_fields (cfg : Config) (request : LogRequest) (timeTaken ts : Z)
    (rw : logpkg.LoggingResponseWriter) (dataMap : DataMap) :
  buildDataMap cfg request timeTaken ts rw = Some dataMap →
  dataMap !! "type" = Some (VString "ingress_http")
  ∧ dataMap !! "url_path" = Some (VString (Method request +:+ " " +:+ URL request))
  ∧ dataMap !! "req_timestamp" = Some (VInt (time.Unix ts))
  ∧ dataMap !! "status" = Some (VInt (logpkg.Status rw))
  ∧ dataMap !! "duration_ms" = Some (VInt timeTaken)
  ∧ dataMap !! "req_header" =
      (if LogRequestHeader cfg then
         Some (VHeader (foldl http.Del (http.Del (Header request) "Authorization")
                              (default [] (RequestHeaderKeys <$> ExcludeOpt cfg))))
       else None)
  ∧ dataMap !! "req_body" =
      (if LogRequestBody cfg then Some (VString (Body request)) else None)
  ∧ dataMap !! "rsp_header" =
      (if LogResponseHeader cfg
       then Some (VHeader (http.Del (logpkg.Header rw) "Authorization"))
       else None)
  ∧ dataMap !! "rsp_body" =
      (if LogResponseBody cfg then
         if LogSuccessResponseBody cfg then Some (VString (logpkg.Body rw))
         else if logpkg.Status rw =? 200 then Some (VString "-")
         else Some (VString (logpkg.Body rw))
       else None).
Proof.
  unfold buildDataMap. rewrite logRequestHeader_spec.
  unfold logResponseBody, http.Clone, StatusOK, wipedMessage,
    FieldType, FieldURL, FieldReqTimestamp, FieldStatus, FieldDurationMs,
    FieldReqHeader, FieldReqBody, FieldResponseHeader, FieldResponseBody,
    valueLogTypeIngress.
  destruct (LogRequestHeader cfg) eqn:E1.
  - apply LogRequestHeader_ExcludeOpt in E1 as (e & He & _). rewrite He. simpl.
    intros [= <-].
    destruct (LogRequestBody cfg), (LogResponseHeader cfg),
      (LogResponseBody cfg), (LogSuccessResponseBody cfg),
      (logpkg.Status rw =? 200); simpl; repeat split; by read_fields.
  - intros [= <-].
    destruct (LogRequestBody cfg), (LogResponseHeader cfg),
      (LogResponseBody cfg), (LogSuccessResponseBody cfg),
      (logpkg.Status rw =? 200); simpl; repeat split; by read_fields.
Qed.

(** What [log] does, given the configuration it finds behind [i.config]. *)
Lemma log_spec (i : IngressLog) (c : Context) (request : LogRequest)
    (timeTaken ts : Z) (rw : logpkg.LoggingResponseWriter) (σ : World)
    (cfg : Config) :
  configs σ !! config i = Some cfg →
  ∃ dataMap,
    buildDataMap cfg request timeTaken ts rw = Some dataMap ∧
    log i c request timeTaken ts rw σ =
    Some (if DisableIngressLog cfg
             || (LogFailedRequestOnly cfg && (logpkg.Status rw =? StatusOK))
          then σ else InfoMap c dataMap σ).
Proof.
  intros Hcfg.
  destruct (buildDataMap_total cfg request timeTaken ts rw) as [dataMap Hdm].
  exists dataMap. split; [done|].
  unfold log. rewrite Hcfg, Hdm.
  by destruct (DisableIngressLog cfg
               || (LogFailedRequestOnly cfg && (logpkg.Status rw =? StatusOK))).
Qed.

End LogRecord.

(** ** The interceptor *)

Section Interceptor.

Context `{!logpkg.Library}.

Lemma InfoMap_emitted (c : Context) (dataMap : DataMap) (σ : World) :
  emitted (InfoMap c dataMap σ) = emitted σ ++ [mkLogEntry c dataMap]
  ∧ clock (InfoMap c dataMap σ) = clock σ
  ∧ configs (InfoMap c dataMap σ) = configs σ.
Proof. done. Qed.

(** Resolving the correlation identifier touches neither the clock, nor
    the configuration, nor the log. *)
Lemma appendContextDataAndSetValue_world (i : IngressLog) (r : Request.t) (σ : World) :
  let σ' := (appendContextDataAndSetValue i r σ).2 in
  clock σ' = clock σ ∧ configs σ' = configs σ ∧ emitted σ' = emitted σ.
Proof.
  unfold appendContextDataAndSetValue.
  destruct (Request.ctx r !! logpkg.ContextDataMapKey); [done|].
  by destruct (String.eqb _ _).
Qed.

(** The recorder as the deferred function passes it to [log]. *)
Lemma deferred_spec (i : IngressLog) (newRequest : Request.t) (request : LogRequest)
    (elapsed ts : Z) (rw : logpkg.LoggingResponseWriter) (r : option PanicValue)
    (σ : World) (cfg : Config) :
  configs σ !! config i = Some cfg →
  let rw' :=
    match r with
    | Some v => logpkg.Write (logpkg.WriteHeader rw StatusInternalServerError)
                             (list_byte_of_string (panicMessage v))
    | None => rw
    end in
  ∃ dataMap,
    buildDataMap cfg request elapsed ts rw' = Some dataMap ∧
    deferred i newRequest request elapsed ts rw r σ =
    Some (rw',
          if DisableIngressLog cfg
             || (LogFailedRequestOnly cfg && (logpkg.Status rw' =? StatusOK))
          then σ else InfoMap (Request.ctx newRequest) dataMap σ).
Proof.
  intros Hcfg rw'.
  destruct (log_spec i (Request.ctx newRequest) request elapsed ts rw' σ cfg Hcfg)
    as (dataMap & Hdm & Hlog).
  exists dataMap. split; [done|].
  unfold deferred. fold rw'. by rewrite Hlog.
Qed.

(** [Enforce] is the handler's run followed by the deferred function. *)
Lemma Enforce_unfold (i : IngressLog) (next : Handler) (w : ResponseWriter.t)
    (r : Request.t) (σ : World) :
  let res := served i next w r σ in
  let newRequest := (appendContextDataAndSetValue i (buildLogRequest r).2 σ).1 in
  Enforce i next w r σ =
  deferred i newRequest
    (observeHeader (buildLogRequest r).1 (reqHeader res))
    (match outcome res with
     | Returned => time.Milliseconds (time.Sub (clock (world res)) (clock σ))
     | Panicked _ => 0
     end)
    (clock σ) (writer res) (recover (outcome res)) (world res).
Proof.
  unfold Enforce, served.
  destruct (buildLogRequest r) as [logReqMessage r1]. simpl.
  pose proof (appendContextDataAndSetValue_world i r1 σ) as (Hclock & _ & _).
  destruct (appendContextDataAndSetValue i r1 σ) as [newRequest σ1].
  simpl in *. unfold Now, Since, Now. rewrite Hclock.
  by destruct (outcome (next _ newRequest σ1)).
Qed.

Lemma EnforceWithParams_Enforce (i : IngressLog) (next : Handle)
    (w : ResponseWriter.t) (r : Request.t) (ps : Params) (σ : World) :
  EnforceWithParams i next w r ps σ = Enforce i (λ w r σ, next w r ps σ) w r σ.
Proof. reflexivity. Qed.


(** C3.  In every record that [log] emits, the field rsp_body follows the
    three-way rule: it is absent when LogResponseBody() is false;
    otherwise it is the recorded body when LogSuccessResponseBody() is
    true; otherwise it is the recorded body when the status is not 200
    and the marker "-" when the status is 200. *)
Theorem log_response_body_rule (i : IngressLog) (c : Context)
    (request : LogRequest) (timeTaken ts : Z)
    (rw : logpkg.LoggingResponseWriter) (σ : World) (cfg : Config) :
  configs σ !! config i = Some cfg →
  DisableIngressLog cfg
    || (LogFailedRequestOnly cfg && (logpkg.Status rw =? 200)) = false →
  ∃ dataMap,
    log i c request timeTaken ts rw σ = Some (InfoMap c dataMap σ)
    ∧ dataMap !! "rsp_body" =
        if LogResponseBody cfg then
          if LogSuccessResponseBody cfg then Some (VString (logpkg.Body rw))
          else if logpkg.Status rw =? 200 then Some (VString "-")
          else Some (VString (logpkg.Body rw))
        else None.
Proof.
  intros Hcfg Hskip.
  destruct (log_spec i c request timeTaken ts rw σ cfg Hcfg)
    as (dataMap & Hdm & Hlog).
  unfold StatusOK in Hlog. rewrite Hskip in Hlog.
  exists dataMap. split; [done|].
  by apply buildDataMap_fields in Hdm as (_ & _ & _ & _ & _ & _ & _ & _ & ?).
Qed.


End Interceptor.

(** ** The correlation identifier *)

(** A generated identifier is a 36-character text, so never empty, and
    takes sixteen bytes from the random source. *)
Lemma uuid_New_String_length (σ : World) :
  String.length (uuid_New_String σ).1 = 36%nat
  ∧ cursor (uuid_New_String σ).2 = (cursor σ + 16)%nat.
Proof. split; reflexivity. Qed.

(** The reference logging package attaches the identifier under its key. *)
Lemma Recorder_attaches (r : Request.t) (contextID : string) :
  Request.ctx (Recorder.SetContextDataAndSetValue r None contextID)
    !! Recorder.ContextDataMapKey
  = Some {[ Recorder.ContextIdKey := contextID ]}.
Proof.
  unfold Recorder.SetContextDataAndSetValue. simpl.
  rewrite lookup_insert_eq. f_equal.
Qed.

Section Correlation.

Context `{!logpkg.Library}.

(** C7.  [appendContextDataAndSetValue]: when the request's context
    already carries a value under the logging package's key, the request
    is returned unchanged (and nothing is generated); otherwise the
    identifier is the x-request-id header when that is not empty, and
    the text of a newly generated UUID when it is, and the request
    returned is the one the logging package makes by attaching that
    identifier to the context. *)
Theorem appendContextDataAndSetValue_rule (i : IngressLog) (r : Request.t)
    (σ : World) :
  (∀ v, Request.ctx r !! logpkg.ContextDataMapKey = Some v →
        appendContextDataAndSetValue i r σ = (r, σ))
  ∧ (Request.ctx r !! logpkg.ContextDataMapKey = None →
     http.Get (Request.Header r) "x-request-id" ≠ EmptyString →
     appendContextDataAndSetValue i r σ =
     (logpkg.SetContextDataAndSetValue r None
        (http.Get (Request.Header r) "x-request-id"), σ))
  ∧ (Request.ctx r !! logpkg.ContextDataMapKey = None →
     http.Get (Request.Header r) "x-request-id" = EmptyString →
     appendContextDataAndSetValue i r σ =
     (logpkg.SetContextDataAndSetValue r None (uuid_New_String σ).1,
      (uuid_New_String σ).2)).
Proof.
  unfold appendContextDataAndSetValue, headerNameRequestID. repeat split.
  - by intros v ->.
  - intros -> Hid. apply String.eqb_neq in Hid. by rewrite Hid.
  - intros -> Hid. rewrite Hid. simpl. reflexivity.
Qed.

End Correlation.

Lemma appendContextDataAndSetValue_rule_witness :
  (Request.ctx Sample.requestWithID !! Recorder.ContextDataMapKey
     = Some {[ Recorder.ContextIdKey := Sample.defContextid ]}
   ∧ @appendContextDataAndSetValue specLibrary Sample.mw Sample.requestWithID
       Sample.plainWorld
     = (Sample.requestWithID, Sample.plainWorld))
  ∧ (Request.ctx Sample.requestWithHeaderID !! Recorder.ContextDataMapKey = None
     ∧ http.Get (Request.Header Sample.requestWithHeaderID) "x-request-id" ≠ EmptyString
     ∧ @appendContextDataAndSetValue specLibrary Sample.mw Sample.requestWithHeaderID
         Sample.plainWorld
       = (Recorder.SetContextDataAndSetValue Sample.requestWithHeaderID None "req-42",
          Sample.plainWorld))
  ∧ (Request.ctx Sample.request !! Recorder.ContextDataMapKey = None
     ∧ http.Get (Request.Header Sample.request) "x-request-id" = EmptyString
     ∧ @appendContextDataAndSetValue specLibrary Sample.mw Sample.request
         Sample.plainWorld
       = (Recorder.SetContextDataAndSetValue Sample.request None
            "0b30557a-9fc4-490e-b358-7da2c7ec1136",
          (uuid_New_String Sample.plainWorld).2)).
Proof.
  assert (H1 : Request.ctx Sample.requestWithID !! Recorder.ContextDataMapKey
               = Some {[ Recorder.ContextIdKey := Sample.defContextid ]})
    by (vm_compute; reflexivity).
  assert (H2 : Request.ctx Sample.requestWithHeaderID !! Recorder.ContextDataMapKey = None)
    by (vm_compute; reflexivity).
  assert (H3 : http.Get (Request.Header Sample.requestWithHeaderID) "x-request-id"
               ≠ EmptyString) by (vm_compute; discriminate).
  assert (H4 : Request.ctx Sample.request !! Recorder.ContextDataMapKey = None)
    by (vm_compute; reflexivity).
  assert (H5 : http.Get (Request.Header Sample.request) "x-request-id" = EmptyString)
    by (vm_compute; reflexivity).
  split; [|split].
  - split; [exact H1|].
    exact (proj1 (@appendContextDataAndSetValue_rule specLibrary Sample.mw
                    Sample.requestWithID Sample.plainWorld) _ H1).
  - split; [exact H2|]. split; [exact H3|].
    exact (proj1 (proj2 (@appendContextDataAndSetValue_rule specLibrary Sample.mw
                           Sample.requestWithHeaderID Sample.plainWorld)) H2 H3).
  - split; [exact H4|]. split; [exact H5|].
    exact (proj2 (proj2 (@appendContextDataAndSetValue_rule specLibrary Sample.mw
                           Sample.request Sample.plainWorld)) H4 H5).
Defined.

(** ** Panics and timing *)

Lemma panicMessage_prefix (v : PanicValue) :
  String.prefix "panic" (panicMessage v) = true
  ∧ panicMessage v = "panic: " +:+ fmt_v v +:+ ".".
Proof. done. Qed.

(** On the reference recorder: with no explicit status so far, the
    fallback makes the recorded status 500; in every case the fallback
    text is appended to the recorded body. *)
Lemma Recorder_fallback (rw : Recorder.t) (v : PanicValue) :
  let rw' := Recorder.Write (Recorder.WriteHeader rw StatusInternalServerError)
                            (list_byte_of_string (panicMessage v)) in
  Recorder.Body rw' = Recorder.Body rw +:+ panicMessage v
  ∧ Recorder.Status rw' = (if Recorder.explicit rw then Recorder.Status rw else 500).
Proof.
  simpl. split; [|done].
  by rewrite string_of_list_byte_of_string.
Qed.

Lemma Milliseconds_Sub_ge (t u n : Z) :
  0 ≤ n → n ≤ 9000000000000 → n * 1000000 ≤ t - u →
  n ≤ time.Milliseconds (time.Sub t u).
Proof.
  intros Hn Hbig Hd. unfold time.Milliseconds, time.Sub, time.maxDuration,
    time.minDuration.
  assert (Hq : ∀ d, n * 1000000 ≤ d → n ≤ d ÷ 1000000).
  { intros d Hle. rewrite <- (Z.quot_mul n 1000000) at 1 by lia.
    apply Z.quot_le_mono; lia. }
  repeat case_match; apply Hq; lia.
Qed.

Section Panic.

Context `{!logpkg.Library}.

(** C2 (amended).  Whenever the wrapped handler panics with a non-nil
    value, [Enforce] and [EnforceWithParams] return normally: the panic
    does not leave them.  The recorder has then received WriteHeader(500)
    followed by Write of the text "panic: <value>." (a text that starts
    with "panic"), with no check for a response committed before; and after
    the records of the handler the log has exactly one more record, or none
    when DisableIngressLog is set or LogFailedRequestOnly() holds and the
    recorded status is 200. *)
Theorem Enforce_recovers_panic (i : IngressLog) (next : Handler)
    (nextP : Handle) (ps : Params) (w : ResponseWriter.t) (r : Request.t)
    (σ : World) :
  (∀ cfg v,
     let res := served i next w r σ in
     outcome res = Panicked v →
     v ≠ PanicNil →
     configs (world res) !! config i = Some cfg →
     let rw' := logpkg.Write (logpkg.WriteHeader (writer res) 500)
                  (list_byte_of_string ("panic: " +:+ fmt_v v +:+ ".")) in
     String.prefix "panic" ("panic: " +:+ fmt_v v +:+ ".") = true
     ∧ ∃ σ' records,
         Enforce i next w r σ = Some (rw', σ')
         ∧ emitted σ' = emitted (world res) ++ records
         ∧ length records =
             if DisableIngressLog cfg
                || (LogFailedRequestOnly cfg && (logpkg.Status rw' =? 200))
             then 0%nat else 1%nat)
  ∧ (∀ cfg v,
     let res := served i (λ w r σ, nextP w r ps σ) w r σ in
     outcome res = Panicked v →
     v ≠ PanicNil →
     configs (world res) !! config i = Some cfg →
     let rw' := logpkg.Write (logpkg.WriteHeader (writer res) 500)
                  (list_byte_of_string ("panic: " +:+ fmt_v v +:+ ".")) in
     ∃ σ' records,
         EnforceWithParams i nextP w r ps σ = Some (rw', σ')
         ∧ emitted σ' = emitted (world res) ++ records
         ∧ length records =
             if DisableIngressLog cfg
                || (LogFailedRequestOnly cfg && (logpkg.Status rw' =? 200))
             then 0%nat else 1%nat).
Proof.
  assert (Hgen : ∀ (h : Handler) cfg v,
     let res := served i h w r σ in
     outcome res = Panicked v →
     v ≠ PanicNil →
     configs (world res) !! config i = Some cfg →
     let rw' := logpkg.Write (logpkg.WriteHeader (writer res) 500)
                  (list_byte_of_string ("panic: " +:+ fmt_v v +:+ ".")) in
     ∃ σ' records,
         Enforce i h w r σ = Some (rw', σ')
         ∧ emitted σ' = emitted (world res) ++ records
         ∧ length records =
             if DisableIngressLog cfg
                || (LogFailedRequestOnly cfg && (logpkg.Status rw' =? 200))
             then 0%nat else 1%nat).
  { intros h cfg v res Hpanic Hnil Hcfg rw'.
    rewrite Enforce_unfold. fold res. rewrite Hpanic.
    assert (Hrec : recover (Panicked v) = Some v) by (by destruct v).
    rewrite Hrec.
    edestruct deferred_spec as (dataMap & _ & ->); [exact Hcfg|].
    unfold StatusOK, StatusInternalServerError, panicMessage. fold rw'.
    destruct (DisableIngressLog cfg
              || (LogFailedRequestOnly cfg && (logpkg.Status rw' =? 200))).
    - exists (world res), []. by rewrite app_nil_r.
    - eexists _, [_]. done. }
  split.
  - intros cfg v res Hpanic Hnil Hcfg rw'. split; [done|]. by apply Hgen.
  - intros cfg v res Hpanic Hnil Hcfg rw'. rewrite EnforceWithParams_Enforce.
    by apply Hgen.
Qed.

(** A [panic(nil)] is recovered as well; the deferred function takes it
    for a normal return and leaves the recorder as the handler left it. *)
Lemma Enforce_panic_nil (i : IngressLog) (next : Handler)
    (w : ResponseWriter.t) (r : Request.t) (σ : World) (cfg : Config) :
  let res := served i next w r σ in
  outcome res = Panicked PanicNil →
  configs (world res) !! config i = Some cfg →
  ∃ σ', Enforce i next w r σ = Some (writer res, σ').
Proof.
  intros res Hpanic Hcfg. rewrite Enforce_unfold. fold res. rewrite Hpanic.
  edestruct deferred_spec as (dataMap & _ & ->); [exact Hcfg|].
  simpl. eauto.
Qed.

(** When the handler panics, the record (if one is emitted) carries
    duration_ms = 0, whatever time the handler took. *)
Lemma Enforce_panic_duration (i : IngressLog) (next : Handler)
    (w : ResponseWriter.t) (r : Request.t) (σ : World) (cfg : Config)
    (v : PanicValue) :
  let res := served i next w r σ in
  outcome res = Panicked v →
  configs (world res) !! config i = Some cfg →
  ∃ rw σ', Enforce i next w r σ = Some (rw, σ') ∧
    ∀ entry, emitted σ' = emitted (world res) ++ [entry] →
             entry_data entry !! "duration_ms" = Some (VInt 0).
Proof.
  intros res Hpanic Hcfg. rewrite Enforce_unfold. fold res. rewrite Hpanic.
  edestruct deferred_spec as (dataMap & Hdm & ->); [exact Hcfg|].
  eexists _, _. split; [done|].
  apply buildDataMap_fields in Hdm as (_ & _ & _ & _ & Hd & _).
  intros entry.
  match goal with |- context [if ?b then _ else _] => destruct b end.
  - intros Heq. apply (f_equal length) in Heq.
    rewrite length_app in Heq. simpl in Heq. lia.
  - simpl. intros Heq%app_inv_head. by injection Heq as <-.
Qed.

(** When the handler returns, the record carries the whole milliseconds
    between the start timestamp and the handler's return. *)
Lemma Enforce_returned_duration (i : IngressLog) (next : Handler)
    (w : ResponseWriter.t) (r : Request.t) (σ : World) (cfg : Config) :
  let res := served i next w r σ in
  outcome res = Returned →
  configs (world res) !! config i = Some cfg →
  ∃ σ', Enforce i next w r σ = Some (writer res, σ') ∧
    ∀ entry, emitted σ' = emitted (world res) ++ [entry] →
             entry_data entry !! "duration_ms" =
             Some (VInt (time.Milliseconds
                           (time.Sub (clock (world res)) (clock σ)))).
Proof.
  intros res Hret Hcfg. rewrite Enforce_unfold. fold res. rewrite Hret.
  edestruct deferred_spec as (dataMap & Hdm & ->); [exact Hcfg|].
  eexists. split; [done|].
  apply buildDataMap_fields in Hdm as (_ & _ & _ & _ & Hd & _).
  intros entry.
  match goal with |- context [if ?b then _ else _] => destruct b end.
  - intros Heq. apply (f_equal length) in Heq.
    rewrite length_app in Heq. simpl in Heq. lia.
  - simpl. intros Heq%app_inv_head. by injection Heq as <-.
Qed.

(** In particular a handler that returns after at least 1000 ms is logged
    with duration_ms of at least 1000. *)
Lemma Enforce_returned_duration_ge (i : IngressLog) (next : Handler)
    (w : ResponseWriter.t) (r : Request.t) (σ : World) (cfg : Config) :
  let res := served i next w r σ in
  outcome res = Returned →
  configs (world res) !! config i = Some cfg →
  1000 * 1000000 ≤ clock (world res) - clock σ →
  ∃ σ', Enforce i next w r σ = Some (writer res, σ') ∧
    ∀ entry, emitted σ' = emitted (world res) ++ [entry] →
      ∃ d, entry_data entry !! "duration_ms" = Some (VInt d) ∧ 1000 ≤ d.
Proof.
  intros res Hret Hcfg Hslow.
  destruct (Enforce_returned_duration i next w r σ cfg Hret Hcfg) as (σ' & HE & Hd).
  exists σ'. split; [done|]. intros entry Hentry.
  eexists. split; [by apply Hd|].
  apply Milliseconds_Sub_ge; [lia|lia|done].
Qed.

End Panic.

(** ** The claims on concrete requests *)

(** The claim of C2 as stated fails.  With DisableIngressLog set, a
    handler that committed status 200 and the body "Hello" and then
    panicked leaves no record at all, and the fallback text is written to
    the recorder although a response was committed.  And a handler that
    calls panic(nil) on a recorder nothing was written to gets no fallback
    response: the recorder keeps status 200 and an empty body. *)
Lemma panic_with_logging_disabled :
  (outcome Sample.commitThenPanicRun = Panicked (PanicString "boom")
   ∧ ResponseWriter.committed (Recorder.sink (writer Sample.commitThenPanicRun))
     = Some 200
   ∧ ∃ rw σ',
       @Enforce specLibrary Sample.mw Sample.commitThenPanic
         ResponseWriter.fresh Sample.request Sample.disabledWorld = Some (rw, σ')
       ∧ emitted σ' = []
       ∧ length (emitted σ') ≠ 1%nat
       ∧ Recorder.Body rw = "Hellopanic: boom."
       ∧ Recorder.Status rw = 200)
  ∧ (outcome (@served specLibrary Sample.mw Sample.nilPanicHandler
                ResponseWriter.fresh Sample.request Sample.plainWorld)
     = Panicked PanicNil
     ∧ ∃ rw σ',
         @Enforce specLibrary Sample.mw Sample.nilPanicHandler
           ResponseWriter.fresh Sample.request Sample.plainWorld = Some (rw, σ')
         ∧ ResponseWriter.committed (Recorder.sink rw) = None
         ∧ Recorder.Body rw = EmptyString
         ∧ Recorder.Status rw = 200).
Proof.
  split.
  - split; [reflexivity|]. split; [reflexivity|].
    eexists _, _. split; [vm_compute; reflexivity|].
    repeat split. simpl. lia.
  - split; [reflexivity|].
    eexists _, _. split; [vm_compute; reflexivity|].
    repeat split.
Qed.

Lemma Enforce_recovers_panic_witness :
  outcome Sample.panicRun = Panicked Sample.nilDereference
  ∧ Sample.nilDereference ≠ PanicNil
  ∧ configs (world Sample.panicRun) !! config Sample.mw = Some Sample.plainConfig
  ∧ Recorder.Status Sample.panicFallback = 500
  ∧ String.prefix "panic" (Recorder.Body Sample.panicFallback) = true
  ∧ ∃ σ' records,
      @Enforce specLibrary Sample.mw Sample.panicHandler
        ResponseWriter.fresh Sample.request Sample.plainWorld
      = Some (Sample.panicFallback, σ')
      ∧ emitted σ' = emitted (world Sample.panicRun) ++ records
      ∧ length records = 1%nat.
Proof.
  assert (H1 : outcome Sample.panicRun = Panicked Sample.nilDereference)
    by reflexivity.
  assert (H2 : configs (world Sample.panicRun) !! config Sample.mw
               = Some Sample.plainConfig) by (vm_compute; reflexivity).
  assert (H3 : Sample.nilDereference ≠ PanicNil) by discriminate.
  split; [exact H1|]. split; [exact H3|]. split; [exact H2|].
  split; [reflexivity|]. split; [reflexivity|].
  exact (proj2 (proj1 (@Enforce_recovers_panic specLibrary Sample.mw
                  Sample.panicHandler (λ w r _ σ, Sample.panicHandler w r σ) []
                  ResponseWriter.fresh Sample.request Sample.plainWorld)
                _ _ H1 H3 H2)).
Defined.

(** C8, on a handler that needs one second and panics before it responds:
    the clock has advanced by one second when the deferred function runs,
    and the one record emitted carries duration_ms = 0, where the claim
    asks for the elapsed milliseconds (at least 1000). *)
Theorem Enforce_panic_duration_zero :
  ∃ rw σ' entry,
    @Enforce specLibrary Sample.mw Sample.slowPanicHandler
      ResponseWriter.fresh Sample.request Sample.plainWorld = Some (rw, σ')
    ∧ clock σ' - clock Sample.plainWorld = 1000 * 1000000
    ∧ emitted σ' = [entry]
    ∧ entry_data entry !! "status" = Some (VInt 500)
    ∧ entry_data entry !! "duration_ms" = Some (VInt 0).
Proof.
  eexists _, _, _.
  split; [vm_compute; reflexivity|].
  repeat split; vm_compute; reflexivity.
Qed.

(** The same interceptor on the handler of the tests, which returns after
    one second: duration_ms is 1000. *)
Lemma Enforce_hello_duration :
  ∃ rw σ' entry,
    @Enforce specLibrary Sample.mw Sample.hello
      ResponseWriter.fresh Sample.request Sample.plainWorld = Some (rw, σ')
    ∧ emitted σ' = [entry]
    ∧ entry_data entry !! "url_path" = Some (VString "GET /hello")
    ∧ entry_data entry !! "status" = Some (VInt 200)
    ∧ entry_data entry !! "req_body" = Some (VString "{name:shopee-shopee}")
    ∧ entry_data entry !! "rsp_body" = Some (VString "{name:shopee-shopee}")
    ∧ entry_data entry !! "duration_ms" = Some (VInt 1000).
Proof.
  eexists _, _, _.
  split; [vm_compute; reflexivity|].
  repeat split; vm_compute; reflexivity.
Qed.

(** C6, evaluated: on a configuration without exclusion block five of the
    six questions are answered false, where a block with every flag unset
    answers true; only LogFailedRequestOnly agrees. *)
Theorem nil_ExcludeOpt_answers :
  (LogRequestHeader (configOf None) = false
   ∧ LogRequestHeader (configOf (Some emptyExcludeOption)) = true)
  ∧ (LogRequestBody (configOf None) = false
     ∧ LogRequestBody (configOf (Some emptyExcludeOption)) = true)
  ∧ (LogResponseHeader (configOf None) = false
     ∧ LogResponseHeader (configOf (Some emptyExcludeOption)) = true)
  ∧ (LogResponseBody (configOf None) = false
     ∧ LogResponseBody (configOf (Some emptyExcludeOption)) = true)
  ∧ (LogSuccessResponseBody (configOf None) = false
     ∧ LogSuccessResponseBody (configOf (Some emptyExcludeOption)) = true)
  ∧ (LogFailedRequestOnly (configOf None) = false
     ∧ LogFailedRequestOnly (configOf (Some emptyExcludeOption)) = false).
Proof. repeat split. Qed.

(** Whatever its other fields, a configuration without exclusion block
    answers every question with false. *)
Lemma nil_ExcludeOpt_all_false (c : Config) :
  ExcludeOpt c = None →
  LogRequestHeader c = false ∧ LogRequestBody c = false ∧
  LogResponseHeader c = false ∧ LogResponseBody c = false ∧
  LogSuccessResponseBody c = false ∧ LogFailedRequestOnly c = false.
Proof.
  intros Hnil.
  unfold LogRequestHeader, LogRequestBody, LogResponseHeader, LogResponseBody,
    LogSuccessResponseBody, LogFailedRequestOnly.
  by rewrite Hnil.
Qed.

(** ** Construction *)

(** C9.  [NewIngressLogMiddleware] with a non-nil [*Config] whose
    ExcludeOpt is nil: [NewConfig] writes an empty ExcludeOption into the
    caller's own cell and returns the caller's pointer; no cell is added and
    no other cell changes; the interceptor keeps that same pointer, so a
    later write of the caller through it (here: setting DisableIngressLog)
    is what the interceptor's [log] acts on. *)
Theorem NewIngressLogMiddleware_aliases_config `{!logpkg.Library}
    (h : ConfigStore) (c : ptr) (cfg : Config) (rest : list (option ptr)) :
  h !! c = Some cfg →
  ExcludeOpt cfg = None →
  NewConfig c h = Some (c, <[c := withExcludeOpt cfg emptyExcludeOption]> h)
  ∧ NewIngressLogMiddleware (Some c :: rest) h =
      Some (mkIngressLog c, <[c := withExcludeOpt cfg emptyExcludeOption]> h)
  ∧ <[c := withExcludeOpt cfg emptyExcludeOption]> h !! c =
      Some (mkConfig (Some emptyExcludeOption) (DisableIngressLog cfg) (FieldOpt cfg))
  ∧ dom (<[c := withExcludeOpt cfg emptyExcludeOption]> h) = dom h
  ∧ (∀ j, j ≠ c →
          <[c := withExcludeOpt cfg emptyExcludeOption]> h !! j = h !! j)
  ∧ (∀ cfg' ctx request timeTaken ts rw σ,
       configs σ = <[c := cfg']> (<[c := withExcludeOpt cfg emptyExcludeOption]> h) →
       DisableIngressLog cfg' = true →
       log (mkIngressLog c) ctx request timeTaken ts rw σ = Some σ).
Proof.
  intros Hc Hnil.
  assert (Hnew : NewConfig c h =
                 Some (c, <[c := withExcludeOpt cfg emptyExcludeOption]> h)).
  { unfold NewConfig. by rewrite Hc, Hnil. }
  split; [done|]. split.
  { unfold NewIngressLogMiddleware. by rewrite Hnew. }
  split; [by rewrite lookup_insert_eq|]. split.
  { apply dom_insert_lookup_L. by exists cfg. }
  split.
  { intros j Hj. by rewrite lookup_insert_ne. }
  intros cfg' ctx request timeTaken ts rw σ Hσ Hdis.
  unfold log. simpl. rewrite Hσ, lookup_insert_eq, Hdis. done.
Qed.

Lemma NewIngressLogMiddleware_aliases_config_witness :
  ({[ 1%positive := configOf None ]} : ConfigStore) !! 1%positive = Some (configOf None)
  ∧ ExcludeOpt (configOf None) = None
  ∧ NewConfig 1 {[ 1%positive := configOf None ]} =
      Some (1%positive, {[ 1%positive := configOf (Some emptyExcludeOption) ]})
  ∧ NewIngressLogMiddleware [Some 1%positive] {[ 1%positive := configOf None ]} =
      Some (mkIngressLog 1, {[ 1%positive := configOf (Some emptyExcludeOption) ]}).
Proof.
  assert (H1 : ({[ 1%positive := configOf None ]} : ConfigStore) !! 1%positive
               = Some (configOf None)) by (vm_compute; reflexivity).
  assert (H2 : ExcludeOpt (configOf None) = None) by reflexivity.
  destruct (@NewIngressLogMiddleware_aliases_config specLibrary
              {[ 1%positive := configOf None ]} 1%positive (configOf None) [] H1 H2)
    as (Ha & Hb & _).
  split; [exact H1|]. split; [exact H2|]. split.
  - rewrite Ha. vm_compute. reflexivity.
  - rewrite Hb. vm_compute. reflexivity.
Defined.

(** Without a configuration, or with a nil one, the interceptor gets a
    cell of its own. *)
Lemma NewIngressLogMiddleware_default (h : ConfigStore) (rest : list (option ptr)) :
  let p := fresh (dom h) in
  h !! p = None
  ∧ NewIngressLogMiddleware [] h =
      Some (mkIngressLog p, <[p := configOf (Some emptyExcludeOption)]> h)
  ∧ NewIngressLogMiddleware (None :: rest) h =
      Some (mkIngressLog p, <[p := configOf (Some emptyExcludeOption)]> h).
Proof.
  intros p. split; [|done].
  apply not_elem_of_dom. apply is_fresh.
Qed.

(** ** Instances of the theorems on the sample request *)


Lemma log_response_body_rule_witness :
  configs Sample.excludeWorld !! config Sample.mw = Some Sample.excludeConfig
  ∧ DisableIngressLog Sample.excludeConfig
      || (LogFailedRequestOnly Sample.excludeConfig
          && (Recorder.Status (Sample.recorderWith 200 "body") =? 200)) = false
  ∧ ∃ dataMap,
      @log specLibrary Sample.mw ∅ Sample.logRequest 1000 Sample.timestamp
        (Sample.recorderWith 200 "body") Sample.excludeWorld
      = Some (InfoMap ∅ dataMap Sample.excludeWorld)
      ∧ dataMap !! "rsp_body" = Some (VString "-").
Proof.
  assert (H1 : configs Sample.excludeWorld !! config Sample.mw
               = Some Sample.excludeConfig) by (vm_compute; reflexivity).
  assert (H2 : DisableIngressLog Sample.excludeConfig
               || (LogFailedRequestOnly Sample.excludeConfig
                   && (Recorder.Status (Sample.recorderWith 200 "body") =? 200))
               = false) by (vm_compute; reflexivity).
  split; [exact H1|]. split; [exact H2|].
  exact (@log_response_body_rule specLibrary Sample.mw ∅ Sample.logRequest 1000
           Sample.timestamp (Sample.recorderWith 200 "body") Sample.excludeWorld
           Sample.excludeConfig H1 H2).
Defined.


(** * Further properties of the package *)

(** ** The configuration *)

(** X1.  [GetEventPrefix] never returns the bare separator: its result is
    a non-empty prefix followed by "/", the prefix being "events" unless
    the configuration names a non-empty one. *)
Theorem GetEventPrefix_shape (c : Config) :
  ∃ p, GetEventPrefix c = p +:+ "/"
       ∧ p ≠ EmptyString
       ∧ (p = "events" ∨ ∃ f, FieldOpt c = Some f ∧ p = FieldOption_EventPrefix f)
       ∧ (2 ≤ String.length (GetEventPrefix c))%nat.
Proof.
  unfold GetEventPrefix, EventPrefix, URLSeparator.
  destruct (FieldOpt c) as [f|].
  - destruct (FieldOption_EventPrefix f) as [|a p] eqn:Hp; simpl.
    + exists "events". repeat split; [done|by left|lia].
    + exists (String a p). repeat split; [done|right; eauto|].
      simpl. destruct p; simpl; lia.
  - exists "events". simpl. repeat split; [done|by left|lia].
Qed.

(** What a successful [NewConfig] did to the store. *)
Lemma NewConfig_spec (c p : ptr) (h h' : ConfigStore) :
  NewConfig c h = Some (p, h') →
  p = c ∧ ∃ cfg,
    h !! c = Some cfg
    ∧ h' = match ExcludeOpt cfg with
           | Some _ => h
           | None => <[c := withExcludeOpt cfg emptyExcludeOption]> h
           end.
Proof.
  unfold NewConfig. destruct (h !! c) as [cfg|] eqn:Hc; [|discriminate].
  destruct (ExcludeOpt cfg) as [e|] eqn:He; intros [= <- <-];
    (split; [done|]); exists cfg; by rewrite ?He.
Qed.

(** X2.  [NewConfig] returns the pointer it was given and is idempotent: a
    second call changes nothing.  It touches no other cell, keeps
    DisableIngressLog and FieldOpt of the cell, leaves the cell with a
    non-nil ExcludeOpt, and changes nothing at all when ExcludeOpt was
    already set. *)
Theorem NewConfig_idempotent (c p : ptr) (h h' : ConfigStore) :
  NewConfig c h = Some (p, h') →
  p = c
  ∧ NewConfig c h' = Some (c, h')
  ∧ (∀ j, j ≠ c → h' !! j = h !! j)
  ∧ ∃ cfg cfg',
      h !! c = Some cfg ∧ h' !! c = Some cfg'
      ∧ DisableIngressLog cfg' = DisableIngressLog cfg
      ∧ FieldOpt cfg' = FieldOpt cfg
      ∧ ExcludeOpt cfg' = Some (default emptyExcludeOption (ExcludeOpt cfg))
      ∧ (is_Some (ExcludeOpt cfg) → h' = h).
Proof.
  intros (-> & cfg & Hc & ->)%NewConfig_spec. split; [done|].
  destruct (ExcludeOpt cfg) as [e|] eqn:He.
  - split; [unfold NewConfig; by rewrite Hc, He|]. split; [done|].
    exists cfg, cfg. by rewrite He.
  - split; [unfold NewConfig; by rewrite lookup_insert_eq|].
    split; [intros j Hj; by rewrite lookup_insert_ne|].
    exists cfg, (withExcludeOpt cfg emptyExcludeOption).
    rewrite lookup_insert_eq, He.
    do 5 (split; [done|]). intros [? [=]].
Qed.

Lemma NewConfig_idempotent_witness :
  NewConfig 1 Cases.callerStore =
    Some (1%positive,
          {[ 1%positive := mkConfig (Some emptyExcludeOption) true
                                    (Some (mkFieldOption "audit")) ]})
  ∧ NewConfig 1 {[ 1%positive := mkConfig (Some emptyExcludeOption) true
                                          (Some (mkFieldOption "audit")) ]} =
    Some (1%positive,
          {[ 1%positive := mkConfig (Some emptyExcludeOption) true
                                    (Some (mkFieldOption "audit")) ]}).
Proof.
  assert (H1 : NewConfig 1 Cases.callerStore =
    Some (1%positive,
          {[ 1%positive := mkConfig (Some emptyExcludeOption) true
                                    (Some (mkFieldOption "audit")) ]}))
    by (vm_compute; reflexivity).
  split; [exact H1|].
  exact (proj1 (proj2 (NewConfig_idempotent 1 1 Cases.callerStore _ H1))).
Defined.

(** X3.  Whatever configuration it is given, a successful
    [NewIngressLogMiddleware] leaves the interceptor with a pointer to an
    existing cell whose ExcludeOpt is not nil, which is what lets [log]
    read [i.config.ExcludeOpt.RequestHeaderKeys]; and every cell that
    existed before keeps its DisableIngressLog and FieldOpt. *)
Theorem NewIngressLogMiddleware_config_valid (optionalConfig : list (option ptr))
    (h h' : ConfigStore) (i : IngressLog) :
  NewIngressLogMiddleware optionalConfig h = Some (i, h') →
  (∃ cfg e, h' !! config i = Some cfg ∧ ExcludeOpt cfg = Some e)
  ∧ ∀ j cfg, h !! j = Some cfg →
      ∃ cfg', h' !! j = Some cfg'
              ∧ DisableIngressLog cfg' = DisableIngressLog cfg
              ∧ FieldOpt cfg' = FieldOpt cfg.
Proof.
  assert (Hdef : ∀ i h', (let '(conf, h0) := defaultConfig h in
                          Some (mkIngressLog conf, h0)) = Some (i, h') →
    (∃ cfg e, h' !! config i = Some cfg ∧ ExcludeOpt cfg = Some e)
    ∧ ∀ j cfg, h !! j = Some cfg →
        ∃ cfg', h' !! j = Some cfg'
                ∧ DisableIngressLog cfg' = DisableIngressLog cfg
                ∧ FieldOpt cfg' = FieldOpt cfg).
  { clear. intros i h'. unfold defaultConfig, allocConfig. intros [= <- <-]. simpl.
    split.
    - eexists _, _. by rewrite lookup_insert_eq.
    - intros j cfg Hj. exists cfg. split; [|done].
      rewrite lookup_insert_ne; [done|].
      intros <-. pose proof (is_fresh (dom h)) as Hf.
      apply Hf. by apply elem_of_dom_2 with cfg. }
  unfold NewIngressLogMiddleware.
  destruct optionalConfig as [|[c|] rest]; [by apply Hdef| |by apply Hdef].
  destruct (NewConfig c h) as [[conf h0]|] eqn:Hnew; [|discriminate].
  intros [= <- <-].
  apply NewConfig_spec in Hnew as (-> & cfg & Hc & ->). simpl.
  destruct (ExcludeOpt cfg) as [e|] eqn:He.
  - split; [eauto|]. intros j cfgj Hj. eauto.
  - split; [eexists _, _; by rewrite lookup_insert_eq|].
    intros j cfgj Hj. destruct (decide (j = c)) as [->|Hne].
    + rewrite Hc in Hj. injection Hj as <-.
      eexists. by rewrite lookup_insert_eq.
    + rewrite lookup_insert_ne by done. eauto.
Qed.

Lemma NewIngressLogMiddleware_config_valid_witness :
  NewIngressLogMiddleware [Some 2%positive] Cases.twoConfigs
    = Some (mkIngressLog 2, Cases.twoConfigs)
  ∧ ∃ cfg e, Cases.twoConfigs !! config (mkIngressLog 2) = Some cfg
             ∧ ExcludeOpt cfg = Some e.
Proof.
  assert (H1 : NewIngressLogMiddleware [Some 2%positive] Cases.twoConfigs
               = Some (mkIngressLog 2, Cases.twoConfigs))
    by (vm_compute; reflexivity).
  split; [exact H1|].
  exact (proj1 (NewIngressLogMiddleware_config_valid _ _ _ _ H1)).
Defined.

(** X4.  Without a configuration, or with a nil one, the interceptor gets
    a cell of its own at a location that was unused, no existing cell
    changes, and that configuration logs everything: logging is enabled,
    the five inclusion questions are answered true, only-failed-requests is
    false and the event prefix is the default. *)
Theorem NewIngressLogMiddleware_default_logs_everything
    (optionalConfig : list (option ptr)) (h : ConfigStore) :
  optionalConfig = [] ∨ (∃ rest, optionalConfig = None :: rest) →
  ∃ i h' cfg,
    NewIngressLogMiddleware optionalConfig h = Some (i, h')
    ∧ h !! config i = None
    ∧ h' !! config i = Some cfg
    ∧ (∀ j, j ≠ config i → h' !! j = h !! j)
    ∧ DisableIngressLog cfg = false
    ∧ LogRequestHeader cfg = true ∧ LogRequestBody cfg = true
    ∧ LogResponseHeader cfg = true ∧ LogResponseBody cfg = true
    ∧ LogSuccessResponseBody cfg = true ∧ LogFailedRequestOnly cfg = false
    ∧ GetEventPrefix cfg = "events/".
Proof.
  intros Hnone.
  assert (Hnew : NewIngressLogMiddleware optionalConfig h =
                 Some (mkIngressLog (fresh (dom h)),
                       <[fresh (dom h) := mkConfig (Some emptyExcludeOption) false None]> h)).
  { by destruct Hnone as [->|[rest ->]]. }
  eexists _, _, _. split; [exact Hnew|]. simpl.
  split; [apply not_elem_of_dom, is_fresh|].
  split; [by rewrite lookup_insert_eq|].
  split; [intros j Hj; by rewrite lookup_insert_ne|].
  repeat split.
Qed.

Lemma NewIngressLogMiddleware_default_logs_everything_witness :
  ([None; Some 1%positive] = [] ∨ ∃ rest, [None; Some 1%positive] = None :: rest)
  ∧ ∃ i h' cfg,
      NewIngressLogMiddleware [None; Some 1%positive] Cases.callerStore = Some (i, h')
      ∧ Cases.callerStore !! config i = None
      ∧ h' !! config i = Some cfg
      ∧ (∀ j, j ≠ config i → h' !! j = Cases.callerStore !! j)
      ∧ DisableIngressLog cfg = false
      ∧ LogRequestHeader cfg = true ∧ LogRequestBody cfg = true
      ∧ LogResponseHeader cfg = true ∧ LogResponseBody cfg = true
      ∧ LogSuccessResponseBody cfg = true ∧ LogFailedRequestOnly cfg = false
      ∧ GetEventPrefix cfg = "events/".
Proof.
  assert (H1 : [None; Some 1%positive] = []
               ∨ ∃ rest, [None; Some 1%positive] = None :: rest)
    by (right; exists [Some 1%positive]; reflexivity).
  split; [exact H1|].
  exact (NewIngressLogMiddleware_default_logs_everything _ Cases.callerStore H1).
Defined.

(** ** The body capture *)

(** X5.  The body capture changes nothing of the request but its body:
    method, URL, header map and context are those of the incoming
    request, a nil body stays nil and a stream stays a stream; and the
    snapshot [buildLogRequest] makes carries the request's URL, method and
    header map. *)
Theorem getRequestBody_frame (r : Request.t) :
  Request.Method (getRequestBody r).2 = Request.Method r
  ∧ Request.URL (getRequestBody r).2 = Request.URL r
  ∧ Request.Header (getRequestBody r).2 = Request.Header r
  ∧ Request.ctx (getRequestBody r).2 = Request.ctx r
  ∧ (Request.Body (getRequestBody r).2 = None ↔ Request.Body r = None)
  ∧ (buildLogRequest r).2 = (getRequestBody r).2
  ∧ URL (buildLogRequest r).1 = Request.URL r
  ∧ Method (buildLogRequest r).1 = Request.Method r
  ∧ Header (buildLogRequest r).1 = Request.Header r
  ∧ Body (buildLogRequest r).1 = (getRequestBody r).1.
Proof.
  unfold buildLogRequest, getRequestBody.
  destruct r as [m u hd [body|] c]; simpl; [|done].
  rewrite getBodyBytes_spec. destruct (io.ReadAll body) as [bytes [e|]]; simpl; done.
Qed.

(** X6.  Capturing a body a second time changes nothing more: the request
    the first capture leaves is a fixed point, and the second snapshot is
    the text of the bytes the first capture read.  So after a read that
    failed, a second capture no longer reports "null" but the bytes read
    before the failure. *)
Theorem getRequestBody_twice (r : Request.t) (chunks : list (list Byte.byte))
    (fin : io.error) :
  getRequestBody
    (getRequestBody (Request.setBody r (Some (io.mkReader chunks fin)))).2
  = (string_of_list_byte (concat chunks),
     (getRequestBody (Request.setBody r (Some (io.mkReader chunks fin)))).2)
  ∧ getRequestBody (getRequestBody (Request.setBody r None)).2
    = getRequestBody (Request.setBody r None).
Proof.
  split; [|done].
  assert (Hfirst : (getRequestBody (Request.setBody r (Some (io.mkReader chunks fin)))).2
                   = Request.setBody r (Some (io.NewBuffer (concat chunks)))).
  { unfold getRequestBody. simpl. rewrite getBodyBytes_spec.
    destruct fin; [rewrite ReadAll_EOF|rewrite ReadAll_ErrOther]; done. }
  rewrite Hfirst. unfold getRequestBody. simpl.
  by rewrite getBodyBytes_spec, ReadAll_NewBuffer.
Qed.

(** ** The record *)

Lemma foldl_Del_lookup (keys : list string) (h : http.Header) (j : string) :
  foldl http.Del h keys !! j =
  if decide (j ∈ textproto.CanonicalMIMEHeaderKey <$> keys) then None else h !! j.
Proof.
  revert h. induction keys as [|k keys IH]; intros h.
  - rewrite fmap_nil. cbn [foldl]. case_decide as Hin; [|done].
    by apply elem_of_nil in Hin.
  - rewrite fmap_cons. cbn [foldl]. rewrite IH, Del_lookup.
    destruct (decide (j ∈ textproto.CanonicalMIMEHeaderKey <$> keys)) as [Hin|Hout].
    + rewrite decide_True; [done|]. by apply list_elem_of_further.
    + destruct (decide (textproto.CanonicalMIMEHeaderKey k = j)) as [<-|Hne].
      * rewrite decide_True; [done|]. apply list_elem_of_here.
      * rewrite decide_False; [done|].
        intros [?|?]%elem_of_cons; [congruence|done].
Qed.

Ltac in_list :=
  solve [ repeat first [ apply list_elem_of_here | apply list_elem_of_further ] ].

Section Record.

Context `{!logpkg.Library}.

(** A data map has no entry outside the nine field names. *)
Lemma buildDataMap_other (cfg : Config) (request : LogRequest) (timeTaken ts : Z)
    (rw : logpkg.LoggingResponseWriter) (dataMap : DataMap) (k : string) :
  buildDataMap cfg request timeTaken ts rw = Some dataMap →
  k ∉ fieldNames → dataMap !! k = None.
Proof.
  intros Hdm Hk. unfold fieldNames in Hk.
  repeat (apply not_elem_of_cons in Hk as [? Hk]).
  revert Hdm. unfold buildDataMap. rewrite logRequestHeader_spec.
  unfold logResponseBody, http.Clone.
  destruct (LogRequestHeader cfg) eqn:E1.
  - apply LogRequestHeader_ExcludeOpt in E1 as (e & He & _). rewrite He.
    intros [= <-].
    destruct (LogRequestBody cfg), (LogResponseHeader cfg),
      (LogResponseBody cfg), (LogSuccessResponseBody cfg),
      (negb (logpkg.Status rw =? StatusOK)); by read_fields.
  - intros [= <-].
    destruct (LogRequestBody cfg), (LogResponseHeader cfg),
      (LogResponseBody cfg), (LogSuccessResponseBody cfg),
      (negb (logpkg.Status rw =? StatusOK)); by read_fields.
Qed.

Lemma buildLogRequest_spec (r : Request.t) :
  buildLogRequest r =
  (mkLogRequest (Request.URL r) (Request.Method r) (Request.Header r)
                (getRequestBody r).1,
   (getRequestBody r).2).
Proof. unfold buildLogRequest. by destruct (getRequestBody r). Qed.

(** What [Enforce] hands to the logger, for any handler. *)
Lemma Enforce_record (i : IngressLog) (next : Handler) (w : ResponseWriter.t)
    (r : Request.t) (σ : World) (cfg : Config) :
  let res := served i next w r σ in
  configs (world res) !! config i = Some cfg →
  ∃ rw elapsed dataMap,
    buildDataMap cfg (observeHeader (buildLogRequest r).1 (reqHeader res))
                 elapsed (clock σ) rw = Some dataMap
    ∧ (outcome res = Returned →
       rw = writer res
       ∧ elapsed = time.Milliseconds (time.Sub (clock (world res)) (clock σ)))
    ∧ Enforce i next w r σ =
      Some (rw,
            if DisableIngressLog cfg
               || (LogFailedRequestOnly cfg && (logpkg.Status rw =? StatusOK))
            then world res
            else InfoMap
                   (Request.ctx (appendContextDataAndSetValue i (buildLogRequest r).2 σ).1)
                   dataMap (world res)).
Proof.
  intros res Hcfg. rewrite Enforce_unfold. fold res.
  edestruct deferred_spec as (dataMap & Hdm & ->); [exact Hcfg|].
  eexists _, _, dataMap. split; [exact Hdm|]. split; [|done].
  by intros ->.
Qed.


(** X8.  A record that [log] emits has entries under the nine field names
    of constant.go only, and each has the type its name stands for: text
    for type, url_path, req_body and rsp_body; an integer for status,
    duration_ms and req_timestamp; a header map for req_header and
    rsp_header. *)
Theorem log_record_schema (i : IngressLog) (c : Context)
    (request : LogRequest) (timeTaken ts : Z)
    (rw : logpkg.LoggingResponseWriter) (σ : World) (cfg : Config) :
  configs σ !! config i = Some cfg →
  DisableIngressLog cfg
    || (LogFailedRequestOnly cfg && (logpkg.Status rw =? 200)) = false →
  ∃ dataMap,
    log i c request timeTaken ts rw σ = Some (InfoMap c dataMap σ)
    ∧ ∀ k v, dataMap !! k = Some v →
        (k ∈ ["type"; "url_path"; "req_body"; "rsp_body"] ∧ ∃ s, v = VString s)
        ∨ (k ∈ ["status"; "duration_ms"; "req_timestamp"] ∧ ∃ n, v = VInt n)
        ∨ (k ∈ ["req_header"; "rsp_header"] ∧ ∃ h, v = VHeader h).
Proof.
  intros Hcfg Hskip.
  destruct (log_spec i c request timeTaken ts rw σ cfg Hcfg)
    as (dataMap & Hdm & Hlog).
  unfold StatusOK in Hlog. rewrite Hskip in Hlog.
  exists dataMap. split; [done|]. intros k v Hkv.
  destruct (decide (k ∈ fieldNames)) as [Hin|Hout].
  - apply buildDataMap_fields in Hdm
      as (Ht & Hu & Hts & Hs & Hd & Hrh & Hrb & Hsh & Hsb).
    unfold fieldNames, FieldType, FieldURL, FieldReqTimestamp, FieldStatus,
      FieldDurationMs, FieldReqHeader, FieldReqBody, FieldResponseHeader,
      FieldResponseBody in Hin.
    repeat (apply elem_of_cons in Hin as [->|Hin]);
      [..|by apply elem_of_nil in Hin];
      rewrite ?Ht, ?Hu, ?Hts, ?Hs, ?Hd, ?Hrh, ?Hrb, ?Hsh, ?Hsb in Hkv;
      repeat case_match; simplify_eq;
      first [ left; split; [in_list|eauto]
            | right; left; split; [in_list|eauto]
            | right; right; split; [in_list|eauto] ].
  - by rewrite (buildDataMap_other _ _ _ _ _ _ k Hdm Hout) in Hkv.
Qed.

(** X9.  Redaction removes nothing else.  In a record that [log] emits,
    the logged request headers are the request's header map without the
    entry for Authorization and without the entries under the canonical
    forms of the names in RequestHeaderKeys: every other entry is logged
    with its values unchanged.  Likewise the logged response headers are
    the recorder's header map without the entry for Authorization. *)
Theorem log_headers_preserved (i : IngressLog) (c : Context)
    (request : LogRequest) (timeTaken ts : Z)
    (rw : logpkg.LoggingResponseWriter) (σ : World) (cfg : Config) :
  configs σ !! config i = Some cfg →
  DisableIngressLog cfg
    || (LogFailedRequestOnly cfg && (logpkg.Status rw =? 200)) = false →
  ∃ dataMap,
    log i c request timeTaken ts rw σ = Some (InfoMap c dataMap σ)
    ∧ (LogRequestHeader cfg = true →
       ∃ h, dataMap !! "req_header" = Some (VHeader h)
         ∧ ∀ j, h !! j =
             if decide (j = "Authorization"
                        ∨ j ∈ textproto.CanonicalMIMEHeaderKey
                              <$> default [] (RequestHeaderKeys <$> ExcludeOpt cfg))
             then None else Header request !! j)
    ∧ (LogResponseHeader cfg = true →
       ∃ h, dataMap !! "rsp_header" = Some (VHeader h)
         ∧ ∀ j, h !! j =
             if decide (j = "Authorization") then None
             else logpkg.Header rw !! j).
Proof.
  intros Hcfg Hskip.
  destruct (log_spec i c request timeTaken ts rw σ cfg Hcfg)
    as (dataMap & Hdm & Hlog).
  unfold StatusOK in Hlog. rewrite Hskip in Hlog.
  exists dataMap. split; [done|].
  apply buildDataMap_fields in Hdm
    as (_ & _ & _ & _ & _ & Hreq & _ & Hrsp & _).
  split.
  - intros Hon. rewrite Hon in Hreq. eexists. split; [exact Hreq|].
    intros j. rewrite foldl_Del_lookup, Del_lookup, Authorization_canonical.
    destruct (decide (j ∈ textproto.CanonicalMIMEHeaderKey
                          <$> default [] (RequestHeaderKeys <$> ExcludeOpt cfg)))
      as [Hin|Hout].
    + rewrite decide_True; [done|by right].
    + destruct (decide ("Authorization" = j)) as [<-|Hne].
      * rewrite decide_True; [done|by left].
      * rewrite decide_False; [done|]. intros [->|?]; done.
  - intros Hon. rewrite Hon in Hrsp. eexists. split; [exact Hrsp|].
    intros j. rewrite Del_lookup, Authorization_canonical.
    destruct (decide ("Authorization" = j)) as [<-|Hne].
    + by rewrite decide_True.
    + rewrite decide_False; [done|]. by intros ->.
Qed.

Lemma policy_withRequestHeaderKeys (cfg : Config) (keys : list string) :
  LogRequestHeader (withRequestHeaderKeys cfg keys) = LogRequestHeader cfg
  ∧ LogRequestBody (withRequestHeaderKeys cfg keys) = LogRequestBody cfg
  ∧ LogResponseHeader (withRequestHeaderKeys cfg keys) = LogResponseHeader cfg
  ∧ LogResponseBody (withRequestHeaderKeys cfg keys) = LogResponseBody cfg
  ∧ LogSuccessResponseBody (withRequestHeaderKeys cfg keys) = LogSuccessResponseBody cfg
  ∧ LogFailedRequestOnly (withRequestHeaderKeys cfg keys) = LogFailedRequestOnly cfg.
Proof.
  unfold LogRequestHeader, LogRequestBody, LogResponseHeader, LogResponseBody,
    LogSuccessResponseBody, LogFailedRequestOnly, withRequestHeaderKeys.
  by destruct (ExcludeOpt cfg).
Qed.

(** X10.  Only the canonical forms of the names in RequestHeaderKeys count:
    two exclusion lists with the same canonical names (any spelling in
    upper or lower case, any order, repeated names) give the same data map
    on every request and response. *)
Theorem exclusion_list_by_canonical_names (cfg : Config) (keys : list string)
    (request : LogRequest) (timeTaken ts : Z)
    (rw : logpkg.LoggingResponseWriter) :
  (∀ j, j ∈ textproto.CanonicalMIMEHeaderKey <$> keys
        ↔ j ∈ textproto.CanonicalMIMEHeaderKey
              <$> default [] (RequestHeaderKeys <$> ExcludeOpt cfg)) →
  buildDataMap (withRequestHeaderKeys cfg keys) request timeTaken ts rw
  = buildDataMap cfg request timeTaken ts rw.
Proof.
  intros Hsame.
  pose proof (policy_withRequestHeaderKeys cfg keys) as (H1 & H2 & H3 & H4 & H5 & _).
  unfold buildDataMap. rewrite !logRequestHeader_spec.
  unfold logResponseBody. rewrite H1, H2, H3, H4, H5.
  destruct (LogRequestHeader cfg) eqn:E1; [|done].
  apply LogRequestHeader_ExcludeOpt in E1 as (e & He & _).
  unfold withRequestHeaderKeys at 1. rewrite He in *. simpl in *.
  assert (Heq : foldl http.Del (http.Del (Header request) "Authorization") keys
                = foldl http.Del (http.Del (Header request) "Authorization")
                        (RequestHeaderKeys e)).
  { apply map_eq. intros j. rewrite !foldl_Del_lookup.
    destruct (decide (j ∈ textproto.CanonicalMIMEHeaderKey <$> keys)) as [Hin|Hout].
    - rewrite decide_True; [done|]. by apply Hsame.
    - rewrite decide_False; [done|]. intros Hin. by apply Hout, Hsame. }
  by rewrite Heq.
Qed.


End Record.


Lemma log_record_schema_witness :
  configs Sample.excludeWorld !! config Sample.mw = Some Sample.excludeConfig
  ∧ DisableIngressLog Sample.excludeConfig
      || (LogFailedRequestOnly Sample.excludeConfig
          && (Recorder.Status (Sample.recorderWith 200 "body") =? 200)) = false
  ∧ ∃ dataMap,
      @log specLibrary Sample.mw ∅ Sample.logRequest 1000 Sample.timestamp
        (Sample.recorderWith 200 "body") Sample.excludeWorld
      = Some (InfoMap ∅ dataMap Sample.excludeWorld)
      ∧ ∀ k v, dataMap !! k = Some v →
          (k ∈ ["type"; "url_path"; "req_body"; "rsp_body"] ∧ ∃ s, v = VString s)
          ∨ (k ∈ ["status"; "duration_ms"; "req_timestamp"] ∧ ∃ n, v = VInt n)
          ∨ (k ∈ ["req_header"; "rsp_header"] ∧ ∃ h, v = VHeader h).
Proof.
  assert (H1 : configs Sample.excludeWorld !! config Sample.mw
               = Some Sample.excludeConfig) by (vm_compute; reflexivity).
  assert (H2 : DisableIngressLog Sample.excludeConfig
               || (LogFailedRequestOnly Sample.excludeConfig
                   && (Recorder.Status (Sample.recorderWith 200 "body") =? 200))
               = false) by (vm_compute; reflexivity).
  split; [exact H1|]. split; [exact H2|].
  exact (@log_record_schema specLibrary Sample.mw ∅ Sample.logRequest 1000
           Sample.timestamp (Sample.recorderWith 200 "body") Sample.excludeWorld
           Sample.excludeConfig H1 H2).
Defined.

Lemma log_headers_preserved_witness :
  configs Sample.excludeWorld !! config Sample.mw = Some Sample.excludeConfig
  ∧ DisableIngressLog Sample.excludeConfig
      || (LogFailedRequestOnly Sample.excludeConfig
          && (Recorder.Status (Sample.recorderWith 200 "body") =? 200)) = false
  ∧ ∃ dataMap h,
      @log specLibrary Sample.mw ∅ Sample.logRequest 1000 Sample.timestamp
        (Sample.recorderWith 200 "body") Sample.excludeWorld
      = Some (InfoMap ∅ dataMap Sample.excludeWorld)
      ∧ dataMap !! "req_header" = Some (VHeader h)
      ∧ h !! "X-Country" = Some ["ID"]
      ∧ h !! "Authorization" = None
      ∧ h !! "X-Exclude-Key" = None.
Proof.
  assert (H1 : configs Sample.excludeWorld !! config Sample.mw
               = Some Sample.excludeConfig) by (vm_compute; reflexivity).
  assert (H2 : DisableIngressLog Sample.excludeConfig
               || (LogFailedRequestOnly Sample.excludeConfig
                   && (Recorder.Status (Sample.recorderWith 200 "body") =? 200))
               = false) by (vm_compute; reflexivity).
  split; [exact H1|]. split; [exact H2|].
  destruct (@log_headers_preserved specLibrary Sample.mw ∅ Sample.logRequest 1000
              Sample.timestamp (Sample.recorderWith 200 "body") Sample.excludeWorld
              Sample.excludeConfig H1 H2) as (dataMap & Hlog & Hreq & _).
  destruct (Hreq eq_refl) as (h & Hh & Hj).
  exists dataMap, h. split; [exact Hlog|]. split; [exact Hh|].
  rewrite !Hj. repeat split; vm_compute; reflexivity.
Defined.

Lemma exclusion_list_by_canonical_names_witness :
  (∀ j, j ∈ textproto.CanonicalMIMEHeaderKey <$> ["x-exclude-key"; "X-EXCLUDE-KEY"]
        ↔ j ∈ textproto.CanonicalMIMEHeaderKey
              <$> default [] (RequestHeaderKeys <$> ExcludeOpt Sample.excludeConfig))
  ∧ @buildDataMap specLibrary Cases.lowerCaseConfig Sample.logRequest 1000
      Sample.timestamp (Sample.recorderWith 200 "body")
    = @buildDataMap specLibrary Sample.excludeConfig Sample.logRequest 1000
        Sample.timestamp (Sample.recorderWith 200 "body").
Proof.
  assert (H1 : ∀ j,
    j ∈ textproto.CanonicalMIMEHeaderKey <$> ["x-exclude-key"; "X-EXCLUDE-KEY"]
    ↔ j ∈ textproto.CanonicalMIMEHeaderKey
          <$> default [] (RequestHeaderKeys <$> ExcludeOpt Sample.excludeConfig)).
  { intros j.
    change (j ∈ ["X-Exclude-Key"; "X-Exclude-Key"] ↔ j ∈ ["X-Exclude-Key"]).
    rewrite !elem_of_cons, elem_of_nil. tauto. }
  split; [exact H1|].
  exact (@exclusion_list_by_canonical_names specLibrary Sample.excludeConfig
           ["x-exclude-key"; "X-EXCLUDE-KEY"] Sample.logRequest 1000
           Sample.timestamp (Sample.recorderWith 200 "body") H1).
Defined.


(** ** The interceptor around the handler *)

Section Around.

Context `{!logpkg.Library}.

(** With an identifier attached upstream the handler is served the
    captured request as it is, in an unchanged world. *)
Lemma served_upstream (i : IngressLog) (next : Handler) (w : ResponseWriter.t)
    (r : Request.t) (σ : World) (v : gmap string string) :
  Request.ctx r !! logpkg.ContextDataMapKey = Some v →
  appendContextDataAndSetValue i (buildLogRequest r).2 σ = ((getRequestBody r).2, σ)
  ∧ served i next w r σ
    = next (logpkg.CreateResponseWrapper w) (getRequestBody r).2 σ.
Proof.
  intros Hv. unfold served. rewrite buildLogRequest_spec. simpl.
  assert (Happ : appendContextDataAndSetValue i (getRequestBody r).2 σ
                 = ((getRequestBody r).2, σ)).
  { unfold appendContextDataAndSetValue.
    assert (Hctx : Request.ctx (getRequestBody r).2 = Request.ctx r).
    { unfold getRequestBody. destruct (Request.Body r); [|done].
      rewrite getBodyBytes_spec. by destruct (io.ReadAll _) as [? [?|]]. }
    by rewrite Hctx, Hv. }
  by rewrite Happ.
Qed.

(** X12.  The capture does not disturb the handler's own read.  For a
    request whose body stream ends with EOF, and a logging package whose
    [SetContextDataAndSetValue] leaves the body alone (or a request that
    already carries an identifier, for which it is not called), the
    handler is served a request whose body, read to its end, gives all the
    bytes of the original stream and no error. *)
Theorem Enforce_handler_reads_full_body (i : IngressLog) (next : Handler)
    (w : ResponseWriter.t) (r : Request.t) (σ : World)
    (chunks : list (list Byte.byte)) :
  Request.Body r = Some (io.mkReader chunks io.EOF) →
  is_Some (Request.ctx r !! logpkg.ContextDataMapKey)
  ∨ (∀ r0 data contextID,
       Request.Body (logpkg.SetContextDataAndSetValue r0 data contextID)
       = Request.Body r0) →
  ∃ newRequest σ1 body,
    served i next w r σ = next (logpkg.CreateResponseWrapper w) newRequest σ1
    ∧ Request.Body newRequest = Some body
    ∧ io.ReadAll body = (concat chunks, None).
Proof.
  intros Hr Hlib.
  assert (Hcap : (getRequestBody r).2
                 = Request.setBody r (Some (io.NewBuffer (concat chunks)))).
  { unfold getRequestBody. by rewrite Hr, getBodyBytes_spec, ReadAll_EOF. }
  destruct Hlib as [[v Hv]|Hlib].
  - destruct (served_upstream i next w r σ v Hv) as (_ & Hs).
    eexists _, _, _. split; [exact Hs|]. rewrite Hcap. simpl.
    split; [done|]. apply ReadAll_NewBuffer.
  - unfold served. rewrite buildLogRequest_spec. simpl.
    destruct (appendContextDataAndSetValue i (getRequestBody r).2 σ)
      as [newRequest σ1] eqn:Happ.
    exists newRequest, σ1, (io.NewBuffer (concat chunks)).
    split; [done|]. split; [|apply ReadAll_NewBuffer].
    revert Happ. unfold appendContextDataAndSetValue.
    destruct (Request.ctx _ !! logpkg.ContextDataMapKey).
    + intros [= <- <-]. by rewrite Hcap.
    + destruct (String.eqb _ _).
      * intros [= <- <-]. by rewrite Hlib, Hcap.
      * intros [= <- <-]. by rewrite Hlib, Hcap.
Qed.



(** X14.  When the context carries no identifier, the one handed to the
    logging package is never empty: it is the first value of the header
    map's entry X-Request-Id (the canonical form of x-request-id) when
    that value is not empty, and nothing is generated then; otherwise it
    is a generated text of 36 characters that took sixteen bytes of the
    random source. *)
Theorem appendContextDataAndSetValue_identifier (i : IngressLog)
    (r : Request.t) (σ : World) :
  Request.ctx r !! logpkg.ContextDataMapKey = None →
  ∃ contextID σ',
    appendContextDataAndSetValue i r σ
    = (logpkg.SetContextDataAndSetValue r None contextID, σ')
    ∧ contextID ≠ EmptyString
    ∧ ((∃ more, Request.Header r !! "X-Request-Id" = Some (contextID :: more))
       ∧ σ' = σ
       ∨ http.Get (Request.Header r) "x-request-id" = EmptyString
         ∧ String.length contextID = 36%nat
         ∧ cursor σ' = (cursor σ + 16)%nat
         ∧ clock σ' = clock σ ∧ configs σ' = configs σ ∧ emitted σ' = emitted σ).
Proof.
  intros Hctx. unfold appendContextDataAndSetValue. rewrite Hctx.
  destruct (String.eqb (http.Get (Request.Header r) headerNameRequestID) EmptyString)
    eqn:Hid.
  - apply String.eqb_eq in Hid.
    exists (uuid_New_String σ).1, (uuid_New_String σ).2.
    split; [reflexivity|]. split.
    + intros Hempty. apply (f_equal String.length) in Hempty.
      pose proof (uuid_New_String_length σ) as [Hlen _].
      rewrite Hlen in Hempty. discriminate.
    + right. split; [done|]. split; [apply uuid_New_String_length|]. done.
  - apply String.eqb_neq in Hid.
    eexists _, _. split; [reflexivity|]. split; [done|]. left. split; [|done].
    revert Hid. unfold http.Get. rewrite headerNameRequestID_canonical.
    destruct (Request.Header r !! "X-Request-Id") as [[|v more]|]; try done.
    eauto.
Qed.

(** X15.  Whatever the handler does, [Enforce] returns (the panic, if any,
    stops there) and leaves of its own nothing in the world but log
    records: the clock, the configuration cells and the random source are
    as the handler left them; and when the handler returned, the recorder
    is exactly as the handler left it. *)
Theorem Enforce_changes_only_the_log (i : IngressLog) (next : Handler)
    (w : ResponseWriter.t) (r : Request.t) (σ : World) (cfg : Config) :
  let res := served i next w r σ in
  configs (world res) !! config i = Some cfg →
  ∃ rw σ' records,
    Enforce i next w r σ = Some (rw, σ')
    ∧ clock σ' = clock (world res)
    ∧ configs σ' = configs (world res)
    ∧ entropy σ' = entropy (world res)
    ∧ cursor σ' = cursor (world res)
    ∧ emitted σ' = emitted (world res) ++ records
    ∧ (length records ≤ 1)%nat
    ∧ (outcome res = Returned → rw = writer res).
Proof.
  intros res Hcfg.
  destruct (Enforce_record i next w r σ cfg Hcfg)
    as (rw & el & dataMap & _ & Hret & HE).
  fold res in HE, Hret. rewrite HE.
  exists rw.
  destruct (DisableIngressLog cfg
            || (LogFailedRequestOnly cfg && (logpkg.Status rw =? StatusOK))).
  - exists (world res), []. rewrite app_nil_r. simpl.
    repeat split; try done; [lia|]. intros Hr. by apply Hret.
  - eexists _, [_]. simpl. repeat split; try done. intros Hr. by apply Hret.
Qed.


(** X17.  [EnforceWithParams] is [Enforce] around the handler with its
    router parameters fixed: the two interceptors serve, recover and log
    alike, and the parameters reach the handler unchanged. *)
Theorem EnforceWithParams_like_Enforce (i : IngressLog) (next : Handle)
    (w : ResponseWriter.t) (r : Request.t) (ps : Params) (σ : World) :
  EnforceWithParams i next w r ps σ = Enforce i (λ w r σ, next w r ps σ) w r σ
  ∧ ∃ newRequest σ1,
      served i (λ w r σ, next w r ps σ) w r σ
      = next (logpkg.CreateResponseWrapper w) newRequest ps σ1.
Proof.
  split; [apply EnforceWithParams_Enforce|].
  unfold served. destruct (buildLogRequest r) as [request r1].
  destruct (appendContextDataAndSetValue i r1 σ) as [newRequest σ1]. eauto.
Qed.

(** X18.  An interceptor made from a configuration with DisableIngressLog
    set emits nothing, whether the handler returns or panics: once the
    deferred function has run, the world is as the handler left it. *)
Theorem disabled_interceptor_is_silent (h h' : ConfigStore) (c : ptr)
    (cfg0 : Config) (rest : list (option ptr)) (i : IngressLog)
    (next : Handler) (w : ResponseWriter.t) (r : Request.t) (σ : World) :
  h !! c = Some cfg0 →
  DisableIngressLog cfg0 = true →
  NewIngressLogMiddleware (Some c :: rest) h = Some (i, h') →
  configs (world (served i next w r σ)) = h' →
  ∃ rw, Enforce i next w r σ = Some (rw, world (served i next w r σ)).
Proof.
  intros Hc Hdis Hnew Hstore.
  assert (Hcell : ∃ cfg, h' !! config i = Some cfg ∧ DisableIngressLog cfg = true).
  { revert Hnew. unfold NewIngressLogMiddleware.
    destruct (NewConfig c h) as [[conf h0]|] eqn:HN; [|discriminate].
    intros [= <- <-]. apply NewConfig_spec in HN as (-> & cfg & Hc' & ->).
    rewrite Hc in Hc'. injection Hc' as <-. simpl.
    destruct (ExcludeOpt cfg0); [eauto|].
    eexists. by rewrite lookup_insert_eq. }
  destruct Hcell as (cfg & Hcfg & Hd). rewrite <- Hstore in Hcfg.
  destruct (Enforce_record i next w r σ cfg Hcfg) as (rw & el & dataMap & _ & _ & HE).
  rewrite Hd in HE. simpl in HE. eauto.
Qed.

End Around.

Lemma Enforce_handler_reads_full_body_witness :
  Request.Body Sample.request
    = Some (io.mkReader [list_byte_of_string "{name:shopee";
                         list_byte_of_string "-shopee}"] io.EOF)
  ∧ (∀ r0 data contextID,
       Request.Body (Recorder.SetContextDataAndSetValue r0 data contextID)
       = Request.Body r0)
  ∧ ∃ newRequest σ1 body,
      Cases.helloPlainRun = Sample.hello (Recorder.Create ResponseWriter.fresh) newRequest σ1
      ∧ Request.Body newRequest = Some body
      ∧ io.ReadAll body = (list_byte_of_string "{name:shopee-shopee}", None).
Proof.
  assert (H2 : ∀ r0 data contextID,
       Request.Body (Recorder.SetContextDataAndSetValue r0 data contextID)
       = Request.Body r0) by reflexivity.
  split; [reflexivity|]. split; [exact H2|].
  exact (@Enforce_handler_reads_full_body specLibrary Sample.mw Sample.hello
           ResponseWriter.fresh Sample.request Sample.plainWorld _ eq_refl
           (or_intror H2)).
Defined.


Lemma appendContextDataAndSetValue_identifier_witness :
  Request.ctx Sample.requestWithHeaderID !! Recorder.ContextDataMapKey = None
  ∧ ∃ contextID σ',
      @appendContextDataAndSetValue specLibrary Sample.mw
        Sample.requestWithHeaderID Sample.plainWorld
      = (Recorder.SetContextDataAndSetValue Sample.requestWithHeaderID None contextID, σ')
      ∧ contextID ≠ EmptyString.
Proof.
  assert (H1 : Request.ctx Sample.requestWithHeaderID !! Recorder.ContextDataMapKey
               = None) by (vm_compute; reflexivity).
  split; [exact H1|].
  destruct (@appendContextDataAndSetValue_identifier specLibrary Sample.mw
              Sample.requestWithHeaderID Sample.plainWorld H1)
    as (contextID & σ' & Happ & Hne & _).
  exists contextID, σ'. split; [exact Happ|exact Hne].
Defined.

Lemma Enforce_changes_only_the_log_witness :
  configs (world Sample.panicRun) !! config Sample.mw = Some Sample.plainConfig
  ∧ ∃ rw σ' records,
      @Enforce specLibrary Sample.mw Sample.panicHandler ResponseWriter.fresh
        Sample.request Sample.plainWorld = Some (rw, σ')
      ∧ clock σ' = clock (world Sample.panicRun)
      ∧ configs σ' = configs (world Sample.panicRun)
      ∧ entropy σ' = entropy (world Sample.panicRun)
      ∧ cursor σ' = cursor (world Sample.panicRun)
      ∧ emitted σ' = emitted (world Sample.panicRun) ++ records
      ∧ (length records ≤ 1)%nat
      ∧ (outcome Sample.panicRun = Returned → rw = writer Sample.panicRun).
Proof.
  assert (H1 : configs (world Sample.panicRun) !! config Sample.mw
               = Some Sample.plainConfig) by (vm_compute; reflexivity).
  split; [exact H1|].
  exact (@Enforce_changes_only_the_log specLibrary Sample.mw Sample.panicHandler
           ResponseWriter.fresh Sample.request Sample.plainWorld
           Sample.plainConfig H1).
Defined.


Lemma disabled_interceptor_is_silent_witness :
  Cases.callerStore !! 1%positive
    = Some (mkConfig None true (Some (mkFieldOption "audit")))
  ∧ NewIngressLogMiddleware [Some 1%positive] Cases.callerStore
    = Some (Sample.mw, configs Cases.auditWorld)
  ∧ configs (world Cases.auditRun) = configs Cases.auditWorld
  ∧ outcome Cases.auditRun = Panicked (PanicString "boom")
  ∧ ∃ rw, @Enforce specLibrary Sample.mw Sample.commitThenPanic
            ResponseWriter.fresh Sample.request Cases.auditWorld
          = Some (rw, world Cases.auditRun).
Proof.
  assert (H1 : Cases.callerStore !! 1%positive
               = Some (mkConfig None true (Some (mkFieldOption "audit"))))
    by (vm_compute; reflexivity).
  assert (H2 : NewIngressLogMiddleware [Some 1%positive] Cases.callerStore
               = Some (Sample.mw, configs Cases.auditWorld))
    by (vm_compute; reflexivity).
  assert (H3 : configs (world Cases.auditRun) = configs Cases.auditWorld)
    by (vm_compute; reflexivity).
  split; [exact H1|]. split; [exact H2|]. split; [exact H3|].
  split; [reflexivity|].
  exact (@disabled_interceptor_is_silent specLibrary Cases.callerStore
           (configs Cases.auditWorld) 1%positive _ [] Sample.mw
           Sample.commitThenPanic ResponseWriter.fresh Sample.request
           Cases.auditWorld H1 eq_refl H2 H3).
Defined.

(** ** The helpers of the tests *)



Section Tests.

Context `{!logpkg.Library}.



(** X21.  [extractLogMessage] needs all four optional fields: on the
    fields of a record built with the request headers, the request body,
    the response headers or the response body left out, it panics on the
    type assertion of the missing field. *)
Theorem extractLogMessage_needs_every_field (cfg : Config)
    (request : LogRequest) (timeTaken ts : Z)
    (rw : logpkg.LoggingResponseWriter) (dataMap mssg : DataMap) :
  buildDataMap cfg request timeTaken ts rw = Some dataMap →
  (∀ k, k ∈ fieldNames → mssg !! k = dataMap !! k) →
  LogRequestHeader cfg = false ∨ LogRequestBody cfg = false
  ∨ LogResponseHeader cfg = false ∨ LogResponseBody cfg = false →
  Test.extractLogMessage mssg = None.
Proof.
  intros Hdm Hsame Hout.
  apply buildDataMap_fields in Hdm
    as (_ & Hurl & _ & Hs & Hd & Hrh & Hrb & Hsh & Hsb).
  unfold Test.extractLogMessage, FieldURL, FieldStatus, FieldDurationMs,
    FieldReqHeader, FieldReqBody, FieldResponseHeader, FieldResponseBody.
  rewrite !Hsame by (unfold fieldNames, FieldType, FieldURL, FieldReqHeader,
    FieldReqBody, FieldResponseHeader, FieldStatus, FieldResponseBody,
    FieldDurationMs, FieldReqTimestamp; in_list).
  rewrite Hurl, Hs, Hd, Hrh, Hrb, Hsh, Hsb. simpl.
  destruct (Test.Split _ _ !! 1%nat); [|done].
  destruct (Test.Split _ _ !! 0%nat); [|done].
  destruct Hout as [-> | [-> | [-> | ->]]]; simpl; repeat case_match; done.
Qed.

End Tests.



Lemma extractLogMessage_needs_every_field_witness :
  @buildDataMap specLibrary Cases.noHeaderConfig Sample.logRequest 1000
    Sample.timestamp (Sample.recorderWith 500 "oops") = Some Cases.noHeaderDataMap
  ∧ LogRequestHeader Cases.noHeaderConfig = false
  ∧ Test.extractLogMessage Cases.noHeaderDataMap = None.
Proof.
  assert (H1 : @buildDataMap specLibrary Cases.noHeaderConfig Sample.logRequest 1000
                 Sample.timestamp (Sample.recorderWith 500 "oops")
               = Some Cases.noHeaderDataMap) by (vm_compute; reflexivity).
  split; [exact H1|]. split; [reflexivity|].
  exact (@extractLogMessage_needs_every_field specLibrary Cases.noHeaderConfig
           Sample.logRequest 1000 Sample.timestamp
           (Sample.recorderWith 500 "oops") Cases.noHeaderDataMap
           Cases.noHeaderDataMap H1 (λ _ _, eq_refl) (or_introl eq_refl)).
Defined.

(** ** Flags and placeholders *)

(** X22.  After construction every policy question is decided by its flag
    alone: the interceptor's configuration has an exclusion block, each of
    the five inclusion questions is the negation of its exclusion flag,
    and only-failed-requests is the flag SuccessRequest. *)
Theorem constructed_policy_follows_flags (optionalConfig : list (option ptr))
    (h h' : ConfigStore) (i : IngressLog) :
  NewIngressLogMiddleware optionalConfig h = Some (i, h') →
  ∃ cfg e,
    h' !! config i = Some cfg ∧ ExcludeOpt cfg = Some e
    ∧ LogRequestHeader cfg = negb (RequestHeader e)
    ∧ LogRequestBody cfg = negb (RequestBody e)
    ∧ LogResponseHeader cfg = negb (ResponseHeader e)
    ∧ LogResponseBody cfg = negb (ResponseBody e)
    ∧ LogSuccessResponseBody cfg = negb (SuccessResponseBody e)
    ∧ LogFailedRequestOnly cfg = SuccessRequest e.
Proof.
  intros Hnew.
  assert (Hcell : ∃ cfg e, h' !! config i = Some cfg ∧ ExcludeOpt cfg = Some e).
  { revert Hnew. unfold NewIngressLogMiddleware, defaultConfig, allocConfig.
    destruct optionalConfig as [|[c|] rest].
    - intros [= <- <-]. simpl. eexists _, _. by rewrite lookup_insert_eq.
    - destruct (NewConfig c h) as [[conf h0]|] eqn:HN; [|discriminate].
      intros [= <- <-]. apply NewConfig_spec in HN as (-> & cfg & Hc & ->). simpl.
      destruct (ExcludeOpt cfg) as [e|] eqn:He; [eauto|].
      eexists _, _. by rewrite lookup_insert_eq.
    - intros [= <- <-]. simpl. eexists _, _. by rewrite lookup_insert_eq. }
  destruct Hcell as (cfg & e & Hcfg & He). exists cfg, e.
  unfold LogRequestHeader, LogRequestBody, LogResponseHeader, LogResponseBody,
    LogSuccessResponseBody, LogFailedRequestOnly, IncludeLog, ExcludeLog.
  rewrite He.
  by destruct (RequestHeader e), (RequestBody e), (ResponseHeader e),
    (ResponseBody e), (SuccessResponseBody e), (SuccessRequest e).
Qed.

Lemma constructed_policy_follows_flags_witness :
  NewIngressLogMiddleware [Some 2%positive] Cases.twoConfigs
    = Some (mkIngressLog 2, Cases.twoConfigs)
  ∧ ∃ cfg e,
      Cases.twoConfigs !! config (mkIngressLog 2) = Some cfg
      ∧ ExcludeOpt cfg = Some e
      ∧ LogRequestHeader cfg = negb (RequestHeader e)
      ∧ LogRequestBody cfg = negb (RequestBody e)
      ∧ LogResponseHeader cfg = negb (ResponseHeader e)
      ∧ LogResponseBody cfg = negb (ResponseBody e)
      ∧ LogSuccessResponseBody cfg = negb (SuccessResponseBody e)
      ∧ LogFailedRequestOnly cfg = SuccessRequest e.
Proof.
  assert (H1 : NewIngressLogMiddleware [Some 2%positive] Cases.twoConfigs
               = Some (mkIngressLog 2, Cases.twoConfigs))
    by (vm_compute; reflexivity).
  split; [exact H1|].
  exact (constructed_policy_follows_flags _ _ _ _ H1).
Defined.

Section Placeholder.

Context `{!logpkg.Library}.


End Placeholder.

